(** * Visa MCP server: the authenticated client and the tool adapter

    A shallow embedding of [src/visa-client.ts] (class [VisaClient]) and of
    the server module: the tool handlers registered on the MCP server, the
    configuration read at start-up and the registry of SSE transports,
    followed by the properties of the specification and by further
    properties of the code.

    Conventions of the embedding.
    - JavaScript values are the inductive [value]; objects are association
      lists in insertion order, because [JSON.stringify] and the request
      bodies depend on that order.
    - JavaScript numbers are restricted to the integers ([Z]); no property
      below depends on a fractional value.  [NaN] cannot reach the handlers
      (the argument schemas reject it).
    - Effects are explicit: a computation reads an environment (file system,
      clock, remote endpoint), updates the fields of the client object, may
      throw a value, and emits a chronological list of observable events
      (file-system calls, console output, constructions of agents and of
      HTTP instances, HTTP requests).
    - [await] is sequential composition: every method has a single
      suspension point (the request), and initialisation runs synchronously
      before it. *)

From Stdlib Require Import String Ascii List ZArith Bool Lia.
From Stdlib Require Import DecimalString.
From Stdlib Require DecimalZ DecimalPos.
Import ListNotations.
Open Scope string_scope.
Open Scope Z_scope.

(** ** JavaScript values *)

Module JS.

Local Set Warnings "-register-all".

Inductive value : Type :=
| VUndefined
| VNull
| VBool (b : bool)
| VNum (n : Z)
| VStr (s : string)
| VArr (elems : list value)
| VObj (props : list (string * value)).

(** [ToBoolean]: [undefined], [null], [false], [0] and the empty string are
    falsy, everything else (arrays and objects included) is truthy. *)
Definition truthy (v : value) : bool :=
  match v with
  | VUndefined | VNull => false
  | VBool b => b
  | VNum n => negb (n =? 0)
  | VStr s => negb (String.eqb s "")
  | VArr _ | VObj _ => true
  end.

(** [a || b] *)
Definition or_else (a b : value) : value := if truthy a then a else b.

Definition nullish (v : value) : bool :=
  match v with
  | VUndefined | VNull => true
  | _ => false
  end.

(** Own-property lookup on an object's property list. *)
Fixpoint lookup (k : string) (props : list (string * value)) : option value :=
  match props with
  | [] => None
  | (k', v) :: rest => if String.eqb k k' then Some v else lookup k rest
  end.

Definition has_key (k : string) (props : list (string * value)) : bool :=
  match lookup k props with Some _ => true | None => false end.

(** Assignment [o.k = v]: an existing property keeps its position. *)
Fixpoint set_prop (k : string) (v : value) (props : list (string * value))
  : list (string * value) :=
  match props with
  | [] => [(k, v)]
  | (k', v') :: rest =>
      if String.eqb k k' then (k, v) :: rest else (k', v') :: set_prop k v rest
  end.

(** Object spread [{ ...base, ...extra }]. *)
Definition spread (base extra : list (string * value)) : list (string * value) :=
  fold_left (fun acc kv => set_prop (fst kv) (snd kv) acc) extra base.

(** Decimal rendering of a number ([Number.prototype.toString]). *)
Definition number_toString (n : Z) : string :=
  NilZero.string_of_int (Z.to_int n).

Definition join (sep : string) (parts : list string) : string :=
  String.concat sep parts.

(** [String(v)], the conversion performed by template literals. *)
Fixpoint to_string (v : value) : string :=
  match v with
  | VUndefined => "undefined"
  | VNull => "null"
  | VBool true => "true"
  | VBool false => "false"
  | VNum n => number_toString n
  | VStr s => s
  | VArr elems =>
      join "," (map (fun e => if nullish e then "" else to_string e) elems)
  | VObj _ => "[object Object]"
  end.

(** The value an [Error] object is modelled by: an object carrying
    [message]. *)
Definition error_object (msg : string) : value := VObj [("message", VStr msg)].

(** Message of the [TypeError] raised by a property read on [undefined] or
    [null]. *)
Definition cannot_read (v : value) (k : string) : value :=
  error_object ("Cannot read properties of " ++ to_string v
                ++ " (reading '" ++ k ++ "')").

Inductive res (A : Type) : Type :=
| Ok (a : A)
| Throw (e : value).
Arguments Ok {A} a.
Arguments Throw {A} e.

Definition res_bind {A B} (r : res A) (f : A -> res B) : res B :=
  match r with Ok a => f a | Throw e => Throw e end.

Notation "'let?' x := r 'in' k" := (res_bind r (fun x => k))
  (at level 10, x name, r at level 100, k at level 200).

(** Property read [v.k]: throws on [undefined] and [null]; primitives and
    arrays have none of the property names read by this program. *)
Definition get (v : value) (k : string) : res value :=
  match v with
  | VUndefined | VNull => Throw (cannot_read v k)
  | VObj props =>
      match lookup k props with Some x => Ok x | None => Ok VUndefined end
  | _ => Ok VUndefined
  end.

(** Optional chaining [v?.k]. *)
Definition get_opt (v : value) (k : string) : res value :=
  if nullish v then Ok VUndefined else get v k.

(** *** [JSON.stringify(v, null, 2)] *)

Definition hex_digit (n : nat) : ascii :=
  nth n (list_ascii_of_string "0123456789abcdef") "0"%char.

Definition dquote : string := String (ascii_of_nat 34) "".
Definition backslash : string := String (ascii_of_nat 92) "".
Definition newline : string := String (ascii_of_nat 10) "".

(** Escape of one character inside a JSON string literal. *)
Definition escape_char (c : ascii) : string :=
  let n := nat_of_ascii c in
  if Nat.eqb n 34 then backslash ++ dquote
  else if Nat.eqb n 92 then backslash ++ backslash
  else if Nat.eqb n 8 then backslash ++ "b"
  else if Nat.eqb n 12 then backslash ++ "f"
  else if Nat.eqb n 10 then backslash ++ "n"
  else if Nat.eqb n 13 then backslash ++ "r"
  else if Nat.eqb n 9 then backslash ++ "t"
  else if Nat.ltb n 32 then
    backslash ++ "u00"
      ++ String (hex_digit (Nat.div n 16)) (String (hex_digit (Nat.modulo n 16)) "")
  else String c "".

Fixpoint escape (s : string) : string :=
  match s with
  | EmptyString => ""
  | String c rest => escape_char c ++ escape rest
  end.

Definition quote (s : string) : string := dquote ++ escape s ++ dquote.

Definition gap : string := "  ".

(** Serialisation at a given current indentation; [None] is the
    [undefined] result (the value is not serialisable). *)
Fixpoint serialize (indent : string) (v : value) : option string :=
  match v with
  | VUndefined => None
  | VNull => Some "null"
  | VBool true => Some "true"
  | VBool false => Some "false"
  | VNum n => Some (number_toString n)
  | VStr s => Some (quote s)
  | VArr elems =>
      let inner := indent ++ gap in
      match map (fun e => match serialize inner e with
                          | Some s => s
                          | None => "null"
                          end) elems with
      | [] => Some "[]"
      | parts =>
          Some ("[" ++ newline ++ inner
                ++ join ("," ++ newline ++ inner) parts
                ++ newline ++ indent ++ "]")
      end
  | VObj props =>
      let inner := indent ++ gap in
      match flat_map (fun kv => let '(k, x) := kv in
                                match serialize inner x with
                                | Some s => [quote k ++ ": " ++ s]
                                | None => []
                                end) props with
      | [] => Some "{}"
      | parts =>
          Some ("{" ++ newline ++ inner
                ++ join ("," ++ newline ++ inner) parts
                ++ newline ++ indent ++ "}")
      end
  end.

Definition stringify (v : value) : value :=
  match serialize "" v with
  | Some s => VStr s
  | None => VUndefined
  end.

End JS.

(** ** Effects: environment, client object, events *)

Module Effects.
Import JS.

Inductive Environment := sandbox | production.

Definition environment_name (e : Environment) : string :=
  match e with sandbox => "sandbox" | production => "production" end.

(** [interface VisaClientConfig] *)
Record VisaClientConfig := {
  userId : string;
  password : string;
  certPath : string;
  keyPath : string;
  caPath : option string;
  environment : Environment
}.

(** Options handed to [new https.Agent]. *)
Record AgentOptions := {
  cert : string;
  key : string;
  ca : option string;
  rejectUnauthorized : bool
}.

(** An [AxiosInstance] is determined by the configuration given to
    [axios.create]. *)
Record AxiosInstance := {
  baseURL : string;
  httpsAgent : AgentOptions;
  auth_username : string;
  auth_password : string;
  headers : list (string * string)
}.

Inductive Verb := GET | POST.

Record Request := {
  via : AxiosInstance;
  verb : Verb;
  url : string;
  body : option value
}.

Record Response := { data : value }.

Inductive Event :=
| EExistsSync (path : string)
| EReadFileSync (path : string)
| EWarn (msg : string)
| ELog (msg : string)
| EAgent (options : AgentOptions)
| ECreate (instance : AxiosInstance)
| ERequest (r : Request).

(** What the file system holds at a path: nothing, something that exists
    but whose read fails with an error object (a directory, a file without
    read permission), or a readable file. *)
Inductive Entry :=
| Absent
| Unreadable (err : list (string * value))
| File (content : string).

(** Outcome of one HTTP exchange: axios resolves with a response or rejects
    with an error object (given by its properties). *)
Inductive Reply :=
| Resolve (r : Response)
| Reject (err : list (string * value)).

Record Env := {
  fs : string -> Entry;
  now : string;
  net : Request -> Reply
}.

(** The mutable fields of [class VisaClient]. *)
Record VisaClient := {
  client : option AxiosInstance;
  config : VisaClientConfig;
  baseUrl : string;
  initialized : bool
}.

Record Outcome (A : Type) := {
  result : res A;
  final : VisaClient;
  events : list Event
}.
Arguments result {A} o.
Arguments final {A} o.
Arguments events {A} o.

Definition M (A : Type) : Type := Env -> VisaClient -> Outcome A.

Definition ret {A} (a : A) : M A :=
  fun _ self => {| result := Ok a; final := self; events := [] |}.

Definition throw {A} (e : value) : M A :=
  fun _ self => {| result := Throw e; final := self; events := [] |}.

(** Events emitted before an outcome. *)
Definition after {A} (evs : list Event) (o : Outcome A) : Outcome A :=
  match o with
  | {| result := r; final := self; events := evs' |} =>
      {| result := r; final := self; events := evs ++ evs' |}
  end.

Definition bind {A B} (m : M A) (f : A -> M B) : M B :=
  fun env self =>
    match m env self with
    | {| result := Ok a; final := self'; events := evs |} =>
        after evs (f a env self')
    | {| result := Throw e; final := self'; events := evs |} =>
        {| result := Throw e; final := self'; events := evs |}
    end.

(** [try { m } catch (error) { h error }] *)
Definition try_catch {A} (m : M A) (h : value -> M A) : M A :=
  fun env self =>
    match m env self with
    | {| result := Ok a; final := self'; events := evs |} =>
        {| result := Ok a; final := self'; events := evs |}
    | {| result := Throw e; final := self'; events := evs |} =>
        after evs (h e env self')
    end.

Definition lift {A} (r : res A) : M A :=
  match r with Ok a => ret a | Throw e => throw e end.

Definition emit (ev : Event) : M unit :=
  fun _ self => {| result := Ok tt; final := self; events := [ev] |}.

Definition this : M VisaClient :=
  fun _ self => {| result := Ok self; final := self; events := [] |}.

Definition assign (f : VisaClient -> VisaClient) : M unit :=
  fun _ self => {| result := Ok tt; final := f self; events := [] |}.

Definition ask : M Env :=
  fun env self => {| result := Ok env; final := self; events := [] |}.

Declare Scope m_scope.
Delimit Scope m_scope with m.
Notation "x <- m ;; k" := (bind m (fun x => k))
  (at level 61, m at next level, right associativity) : m_scope.
Notation "m ;; k" := (bind m (fun _ => k))
  (at level 61, right associativity) : m_scope.
Open Scope m_scope.

(** *** Library calls *)

Definition existsSync (path : string) : M bool :=
  emit (EExistsSync path) ;;
  env <- ask ;;
  ret (match fs env path with Absent => false | _ => true end).

Definition readFileSync (path : string) : M string :=
  emit (EReadFileSync path) ;;
  env <- ask ;;
  match fs env path with
  | File content => ret content
  | Unreadable err => throw (VObj err)
  | Absent =>
      throw (error_object
               ("ENOENT: no such file or directory, open '" ++ path ++ "'"))
  end.

Definition console_warn (msg : string) : M unit := emit (EWarn msg).
Definition console_log (msg : string) : M unit := emit (ELog msg).

Definition new_Agent (options : AgentOptions) : M AgentOptions :=
  emit (EAgent options) ;; ret options.

Definition axios_create (instance : AxiosInstance) : M AxiosInstance :=
  emit (ECreate instance) ;; ret instance.

Definition send (r : Request) : M Response :=
  emit (ERequest r) ;;
  env <- ask ;;
  match net env r with
  | Resolve resp => ret resp
  | Reject err => throw (VObj err)
  end.

Definition axios_get (c : AxiosInstance) (path : string) : M Response :=
  send {| via := c; verb := GET; url := path; body := None |}.

Definition axios_post (c : AxiosInstance) (path : string) (payload : value)
  : M Response :=
  send {| via := c; verb := POST; url := path; body := Some payload |}.

Definition Date_now_toISOString : M string :=
  env <- ask ;; ret (now env).

End Effects.

(** ** [class VisaClient] *)

Module Client.
Import JS Effects.

(** [constructor(config)] *)
Definition new_VisaClient (cfg : VisaClientConfig) : VisaClient :=
  {| client := None;
     config := cfg;
     baseUrl := match environment cfg with
                | sandbox => "https://sandbox.api.visa.com"
                | production => "https://api.visa.com"
                end;
     initialized := false |}.

Definition set_client (c : option AxiosInstance) : M unit :=
  assign (fun self => {| client := c; config := config self;
                         baseUrl := baseUrl self;
                         initialized := initialized self |}).

Definition set_initialized (b : bool) : M unit :=
  assign (fun self => {| client := client self; config := config self;
                         baseUrl := baseUrl self; initialized := b |}).

(** The [ca] option: [caPath && fs.existsSync(caPath) ? fs.readFileSync(caPath)
    : undefined]. *)
Definition read_ca (caPath : option string) : M (option string) :=
  match caPath with
  | None => ret None
  | Some p =>
      if truthy (VStr p) then
        present <- existsSync p ;;
        if present then content <- readFileSync p ;; ret (Some content)
        else ret None
      else ret None
  end.

Definition not_initialized_message : string :=
  "Visa API client not initialized. Please configure your certificates in the certs/ directory.".

(** [private initialize(): void] *)
Definition initialize : M unit :=
  self <- this ;;
  if initialized self then ret tt
  else
    let cfg := config self in
    certPresent <- existsSync (certPath cfg) ;;
    if negb certPresent then
      console_warn ("⚠️  Warning: Certificate file not found at " ++ certPath cfg) ;;
      console_warn "   Please add your Visa certificates to the certs/ directory." ;;
      console_warn "   API calls will fail until certificates are configured." ;;
      ret tt
    else
      keyPresent <- existsSync (keyPath cfg) ;;
      if negb keyPresent then
        console_warn ("⚠️  Warning: Key file not found at " ++ keyPath cfg) ;;
        ret tt
      else
        certData <- readFileSync (certPath cfg) ;;
        keyData <- readFileSync (keyPath cfg) ;;
        caData <- read_ca (caPath cfg) ;;
        agent <- new_Agent {| cert := certData; key := keyData; ca := caData;
                              rejectUnauthorized := true |} ;;
        instance <- axios_create
                      {| baseURL := baseUrl self;
                         httpsAgent := agent;
                         auth_username := userId cfg;
                         auth_password := password cfg;
                         headers := [("Content-Type", "application/json");
                                     ("Accept", "application/json")] |} ;;
        set_client (Some instance) ;;
        set_initialized true ;;
        console_log ("✅ Visa API client initialized ("
                     ++ environment_name (environment cfg) ++ ")").

(** [private getClient(): AxiosInstance] *)
Definition getClient : M AxiosInstance :=
  initialize ;;
  self <- this ;;
  match client self with
  | None => throw (error_object not_initialized_message)
  | Some c => ret c
  end.

(** *** Hello World / Test *)

Definition helloWorld : M value :=
  c <- getClient ;;
  response <- axios_get c "/vdp/helloworld" ;;
  ret (data response).

(** *** Foreign Exchange *)

Definition getExchangeRate (sourceCurrencyCode destinationCurrencyCode : string)
    (sourceAmount : Z) : M value :=
  c <- getClient ;;
  response <- axios_post c "/forexrates/v2/foreignexchangerates"
                (VObj [("sourceCurrencyCode", VStr sourceCurrencyCode);
                       ("destinationCurrencyCode", VStr destinationCurrencyCode);
                       ("sourceAmount", VStr (number_toString sourceAmount))]) ;;
  ret (data response).

(** *** ATM Locator *)

Inductive DistanceUnit := km | mi.

Definition unit_name (u : DistanceUnit) : string :=
  match u with km => "km" | mi => "mi" end.

(** A default parameter value applies when the argument is [undefined]. *)
Definition default {A} (arg : option A) (d : A) : A :=
  match arg with Some a => a | None => d end.

Definition findNearbyAtms_payload (latitude longitude distance : Z)
    (distanceUnit : DistanceUnit) (requestTs : string) : value :=
  VObj
    [("wsRequestHeaderV2",
       VObj [("requestTs", VStr requestTs);
             ("applicationId", VStr "VISA_MCP")]);
     ("requestData",
       VObj [("location",
               VObj [("geocodes",
                       VObj [("latitude", VNum latitude);
                             ("longitude", VNum longitude)])]);
             ("options",
               VObj [("range",
                       VObj [("distance", VNum distance);
                             ("distanceUnit", VStr (unit_name distanceUnit))]);
                     ("findFilters", VArr []);
                     ("sort",
                       VObj [("primary", VStr "distance");
                             ("direction", VStr "asc")])])])].

Definition findNearbyAtms (latitude longitude : Z) (distance : option Z)
    (distanceUnit : option DistanceUnit) : M value :=
  let distance := default distance 5 in
  let distanceUnit := default distanceUnit km in
  c <- getClient ;;
  requestTs <- Date_now_toISOString ;;
  response <- axios_post c "/globalatmlocator/v1/localatms/atmLocator"
                (findNearbyAtms_payload latitude longitude distance
                   distanceUnit requestTs) ;;
  ret (data response).

(** *** Visa Subscription Manager (VSM) *)

Definition vsmSearch (pan : string) : M value :=
  c <- getClient ;;
  response <- axios_post c "/vsm/v1/search" (VObj [("pan", VStr pan)]) ;;
  ret (data response).

Definition vsmMerchantDetails (transactionId : string) : M value :=
  c <- getClient ;;
  response <- axios_post c "/vsm/v1/merchantdetails"
                (VObj [("transactionId", VStr transactionId)]) ;;
  ret (data response).

(** An optional string argument as the value the body of the method sees. *)
Definition optional (arg : option string) : value :=
  match arg with Some s => VStr s | None => VUndefined end.

Definition vsmAddMerchant_payload (pan merchantId : string)
    (reason : option string) : value :=
  VObj [("pan", VStr pan);
        ("merchantId", VStr merchantId);
        ("reason", or_else (optional reason) (VStr "Subscription cancellation"))].

Definition vsmAddMerchant (pan merchantId : string) (reason : option string)
  : M value :=
  c <- getClient ;;
  response <- axios_post c "/vsm/v1/addmerchant"
                (vsmAddMerchant_payload pan merchantId reason) ;;
  ret (data response).

Definition vsmCancel (stopId : string) : M value :=
  c <- getClient ;;
  response <- axios_post c "/vsm/v1/cancel" (VObj [("stopId", VStr stopId)]) ;;
  ret (data response).

(** *** Visa Stop Payment Service (VSPS) *)

Definition vspsSearchInstructions (pan : string) : M value :=
  c <- getClient ;;
  response <- axios_post c "/vsps/v1/stopinstructions/search"
                (VObj [("pan", VStr pan)]) ;;
  ret (data response).

Definition vspsSearchEligible (pan : string) (days : option Z) : M value :=
  let days := default days 90 in
  c <- getClient ;;
  response <- axios_post c "/vsps/v1/eligibletransactions/search"
                (VObj [("pan", VStr pan); ("searchPeriodDays", VNum days)]) ;;
  ret (data response).

(** [level: "merchant" | "mcc" | "pan"] *)
Inductive Level := level_merchant | level_mcc | level_pan.

Definition level_name (l : Level) : string :=
  match l with
  | level_merchant => "merchant"
  | level_mcc => "mcc"
  | level_pan => "pan"
  end.

(** [level === "merchant"], [level === "mcc"] *)
Definition is_merchant (l : Level) : bool :=
  match l with level_merchant => true | _ => false end.

Definition is_mcc (l : Level) : bool :=
  match l with level_mcc => true | _ => false end.

(** The [payload] object of [vspsAddStop], built before the request. *)
Definition vspsAddStop_payload (pan : string) (level : Level)
    (merchantId mcc : option string) : list (string * value) :=
  let payload := [("pan", VStr pan); ("level", VStr (level_name level))] in
  if is_merchant level && truthy (optional merchantId) then
    set_prop "merchantId" (optional merchantId) payload
  else if is_mcc level && truthy (optional mcc) then
    set_prop "mcc" (optional mcc) payload
  else payload.

Definition vspsAddStop (pan : string) (level : Level)
    (merchantId mcc : option string) : M value :=
  let payload := vspsAddStop_payload pan level merchantId mcc in
  c <- getClient ;;
  response <- axios_post c "/vsps/v1/stopinstructions/add" (VObj payload) ;;
  ret (data response).

Definition vspsCancelStop (stopId : string) : M value :=
  c <- getClient ;;
  response <- axios_post c "/vsps/v1/stopinstructions/cancel"
                (VObj [("stopId", VStr stopId)]) ;;
  ret (data response).

Definition vspsUpdateStop (stopId : string) (updates : list (string * value))
  : M value :=
  c <- getClient ;;
  response <- axios_post c "/vsps/v1/stopinstructions/update"
                (VObj (spread [("stopId", VStr stopId)] updates)) ;;
  ret (data response).

Definition vspsExtendStop (stopId newEndDate : string) : M value :=
  c <- getClient ;;
  response <- axios_post c "/vsps/v1/stopinstructions/extend"
                (VObj [("stopId", VStr stopId);
                       ("newEndDate", VStr newEndDate)]) ;;
  ret (data response).

End Client.

(** ** The tool handlers registered on the MCP server *)

Module Tools.
Import JS Effects Client.

Record TextContent := { type : string; text : value }.
Record Envelope := { content : list TextContent }.

Definition text_envelope (t : value) : Envelope :=
  {| content := [{| type := "text"; text := t |}] |}.

(** [function formatResponse(data: any, error?: string)] *)
Definition formatResponse (data : value) (error : value) : Envelope :=
  if truthy error then
    text_envelope (VStr ("Error: " ++ to_string error))
  else
    text_envelope (stringify data).

(** The [catch (error: any)] clause shared by all handlers:
    [formatResponse(null, error.response?.data?.message || error.message)]. *)
Definition structured_message (error : value) : res value :=
  let? response := get error "response" in
  let? d := get_opt response "data" in
  get_opt d "message".

Definition error_text (error : value) : res value :=
  let? m := structured_message error in
  if truthy m then Ok m else get error "message".

Definition on_error (error : value) : M Envelope :=
  msg <- lift (error_text error) ;;
  ret (formatResponse VNull msg).

(** *** Core tools *)

Definition hello_world : M Envelope :=
  try_catch
    (data <- helloWorld ;;
     ret (formatResponse data VUndefined))
    on_error.

Definition exchange_rate_text (sourceCurrency destinationCurrency : string)
    (sourceAmount : Z) (data : value) : res string :=
  let? conversionRate := get data "conversionRate" in
  let rate := or_else conversionRate (VStr "N/A") in
  let? destinationAmount := get data "destinationAmount" in
  let converted := or_else destinationAmount (VStr "N/A") in
  Ok ("Exchange Rate: " ++ to_string rate ++ newline
      ++ number_toString sourceAmount ++ " " ++ sourceCurrency ++ " = "
      ++ to_string converted ++ " " ++ destinationCurrency ++ newline ++ newline
      ++ "Full response:" ++ newline ++ to_string (stringify data)).

Definition get_exchange_rate (sourceCurrency destinationCurrency : string)
    (sourceAmount : Z) : M Envelope :=
  try_catch
    (data <- getExchangeRate sourceCurrency destinationCurrency sourceAmount ;;
     t <- lift (exchange_rate_text sourceCurrency destinationCurrency
                  sourceAmount data) ;;
     ret (text_envelope (VStr t)))
    on_error.

(** [arg || d] on an optional number. *)
Definition or_number (arg : option Z) (d : Z) : Z :=
  match arg with
  | Some n => if truthy (VNum n) then n else d
  | None => d
  end.

(** The template of one line of the ATM summary; [i] is the index given by
    [map]. *)
Definition atm_line (i : nat) (atm : value) : res string :=
  let? atmName := get atm "atmName" in
  let? address := get atm "address" in
  let? street := get_opt address "street" in
  let? address' := get atm "address" in
  let? city := get_opt address' "city" in
  let? distance := get atm "distance" in
  Ok (number_toString (Z.of_nat i + 1) ++ ". "
      ++ to_string (or_else atmName (VStr "ATM")) ++ " - "
      ++ to_string (or_else street (VStr "Unknown")) ++ ", "
      ++ to_string (or_else city (VStr "")) ++ " ("
      ++ to_string (or_else distance (VStr "?")) ++ " km)").

(** [Array.prototype.map] with the index, for a callback that may throw. *)
Fixpoint map_indexed {A B} (f : nat -> A -> res B) (i : nat) (l : list A)
  : res (list B) :=
  match l with
  | [] => Ok []
  | x :: rest =>
      let? y := f i x in
      let? ys := map_indexed f (S i) rest in
      Ok (y :: ys)
  end.

(** [atms.slice(0, 10).map(...)]: only an array has both methods. *)
Definition slice_map (atms : value) : res (list string) :=
  match atms with
  | VArr elems => map_indexed atm_line 0 (firstn 10 elems)
  | VStr _ => Throw (error_object "atms.slice(...).map is not a function")
  | _ => Throw (error_object "atms.slice is not a function")
  end.

(** [atms.length] once [slice] and [map] have succeeded. *)
Definition length_of (atms : value) : value :=
  match atms with
  | VArr elems => VNum (Z.of_nat (length elems))
  | _ => VUndefined
  end.

Definition atm_text (data : value) : res string :=
  let? responseData := get data "responseData" in
  let? atmList := get_opt responseData "atmList" in
  let atms := or_else atmList (VArr []) in
  let? lines := slice_map atms in
  let summary := join newline lines in
  Ok ("Found " ++ to_string (length_of atms) ++ " ATMs nearby:" ++ newline
      ++ newline ++ to_string (or_else (VStr summary) (VStr "No ATMs found"))).

Definition find_nearby_atms (latitude longitude : Z) (distance : option Z)
  : M Envelope :=
  try_catch
    (data <- findNearbyAtms latitude longitude
               (Some (or_number distance 5)) None ;;
     t <- lift (atm_text data) ;;
     ret (text_envelope (VStr t)))
    on_error.

(** *** Visa Subscription Manager tools *)

Definition vsm_search (pan : string) : M Envelope :=
  try_catch
    (data <- vsmSearch pan ;;
     ret (formatResponse data VUndefined))
    on_error.

Definition vsm_merchant_details (transactionId : string) : M Envelope :=
  try_catch
    (data <- vsmMerchantDetails transactionId ;;
     ret (formatResponse data VUndefined))
    on_error.

Definition vsm_add_merchant (pan merchantId : string) (reason : option string)
  : M Envelope :=
  try_catch
    (data <- vsmAddMerchant pan merchantId reason ;;
     ret (formatResponse data VUndefined))
    on_error.

Definition vsm_cancel (stopId : string) : M Envelope :=
  try_catch
    (data <- vsmCancel stopId ;;
     ret (formatResponse data VUndefined))
    on_error.

(** *** Visa Stop Payment Service tools *)

Definition vsps_search_instructions (pan : string) : M Envelope :=
  try_catch
    (data <- vspsSearchInstructions pan ;;
     ret (formatResponse data VUndefined))
    on_error.

Definition vsps_search_eligible (pan : string) (days : option Z) : M Envelope :=
  try_catch
    (data <- vspsSearchEligible pan (Some (or_number days 90)) ;;
     ret (formatResponse data VUndefined))
    on_error.

Definition vsps_add_stop (pan : string) (level : Level)
    (merchantId mcc : option string) : M Envelope :=
  try_catch
    (data <- vspsAddStop pan level merchantId mcc ;;
     ret (formatResponse data VUndefined))
    on_error.

Definition vsps_cancel_stop (stopId : string) : M Envelope :=
  try_catch
    (data <- vspsCancelStop stopId ;;
     ret (formatResponse data VUndefined))
    on_error.

(** The [updates] record built by the [vsps_update_stop] handler. *)
Definition build_updates (merchantId notes : option string)
  : list (string * value) :=
  let updates := [] in
  let updates := if truthy (optional merchantId)
                 then set_prop "merchantId" (optional merchantId) updates
                 else updates in
  let updates := if truthy (optional notes)
                 then set_prop "notes" (optional notes) updates
                 else updates in
  updates.

Definition vsps_update_stop (stopId : string) (merchantId notes : option string)
  : M Envelope :=
  try_catch
    (let updates := build_updates merchantId notes in
     data <- vspsUpdateStop stopId updates ;;
     ret (formatResponse data VUndefined))
    on_error.

Definition vsps_extend_stop (stopId newEndDate : string) : M Envelope :=
  try_catch
    (data <- vspsExtendStop stopId newEndDate ;;
     ret (formatResponse data VUndefined))
    on_error.

End Tools.

(** ** Vocabulary of the specification *)

Module Spec.
Import JS Effects Client Tools.

(** One call of a public method of the client, with its arguments. *)
Inductive Operation :=
| OpHelloWorld
| OpGetExchangeRate (sourceCurrencyCode destinationCurrencyCode : string)
    (sourceAmount : Z)
| OpFindNearbyAtms (latitude longitude : Z) (distance : option Z)
    (distanceUnit : option DistanceUnit)
| OpVsmSearch (pan : string)
| OpVsmMerchantDetails (transactionId : string)
| OpVsmAddMerchant (pan merchantId : string) (reason : option string)
| OpVsmCancel (stopId : string)
| OpVspsSearchInstructions (pan : string)
| OpVspsSearchEligible (pan : string) (days : option Z)
| OpVspsAddStop (pan : string) (level : Level) (merchantId mcc : option string)
| OpVspsCancelStop (stopId : string)
| OpVspsUpdateStop (stopId : string) (updates : list (string * value))
| OpVspsExtendStop (stopId newEndDate : string).

Definition perform (op : Operation) : M value :=
  match op with
  | OpHelloWorld => helloWorld
  | OpGetExchangeRate s d a => getExchangeRate s d a
  | OpFindNearbyAtms la lo di u => findNearbyAtms la lo di u
  | OpVsmSearch p => vsmSearch p
  | OpVsmMerchantDetails t => vsmMerchantDetails t
  | OpVsmAddMerchant p m r => vsmAddMerchant p m r
  | OpVsmCancel s => vsmCancel s
  | OpVspsSearchInstructions p => vspsSearchInstructions p
  | OpVspsSearchEligible p d => vspsSearchEligible p d
  | OpVspsAddStop p l m c => vspsAddStop p l m c
  | OpVspsCancelStop s => vspsCancelStop s
  | OpVspsUpdateStop s u => vspsUpdateStop s u
  | OpVspsExtendStop s e => vspsExtendStop s e
  end.

(** The verb and the path bound to each operation, whatever its
    arguments. *)
Definition verb_of (op : Operation) : Verb :=
  match op with
  | OpHelloWorld => GET
  | _ => POST
  end.

Definition path_of (op : Operation) : string :=
  match op with
  | OpHelloWorld => "/vdp/helloworld"
  | OpGetExchangeRate _ _ _ => "/forexrates/v2/foreignexchangerates"
  | OpFindNearbyAtms _ _ _ _ => "/globalatmlocator/v1/localatms/atmLocator"
  | OpVsmSearch _ => "/vsm/v1/search"
  | OpVsmMerchantDetails _ => "/vsm/v1/merchantdetails"
  | OpVsmAddMerchant _ _ _ => "/vsm/v1/addmerchant"
  | OpVsmCancel _ => "/vsm/v1/cancel"
  | OpVspsSearchInstructions _ => "/vsps/v1/stopinstructions/search"
  | OpVspsSearchEligible _ _ => "/vsps/v1/eligibletransactions/search"
  | OpVspsAddStop _ _ _ _ => "/vsps/v1/stopinstructions/add"
  | OpVspsCancelStop _ => "/vsps/v1/stopinstructions/cancel"
  | OpVspsUpdateStop _ _ => "/vsps/v1/stopinstructions/update"
  | OpVspsExtendStop _ _ => "/vsps/v1/stopinstructions/extend"
  end.

(** The request body of each operation ([None]: no body). *)
Definition payload_of (op : Operation) (env : Env) : option value :=
  match op with
  | OpHelloWorld => None
  | OpGetExchangeRate s d a =>
      Some (VObj [("sourceCurrencyCode", VStr s);
                  ("destinationCurrencyCode", VStr d);
                  ("sourceAmount", VStr (number_toString a))])
  | OpFindNearbyAtms la lo di u =>
      Some (findNearbyAtms_payload la lo (default di 5) (default u km)
              (now env))
  | OpVsmSearch p => Some (VObj [("pan", VStr p)])
  | OpVsmMerchantDetails t => Some (VObj [("transactionId", VStr t)])
  | OpVsmAddMerchant p m r => Some (vsmAddMerchant_payload p m r)
  | OpVsmCancel s => Some (VObj [("stopId", VStr s)])
  | OpVspsSearchInstructions p => Some (VObj [("pan", VStr p)])
  | OpVspsSearchEligible p d =>
      Some (VObj [("pan", VStr p); ("searchPeriodDays", VNum (default d 90))])
  | OpVspsAddStop p l m c => Some (VObj (vspsAddStop_payload p l m c))
  | OpVspsCancelStop s => Some (VObj [("stopId", VStr s)])
  | OpVspsUpdateStop s u => Some (VObj (spread [("stopId", VStr s)] u))
  | OpVspsExtendStop s e =>
      Some (VObj [("stopId", VStr s); ("newEndDate", VStr e)])
  end.

(** The request an operation sends through handle [c]. *)
Definition request_of (op : Operation) (env : Env) (c : AxiosInstance)
  : Request :=
  {| via := c; verb := verb_of op; url := path_of op;
     body := payload_of op env |}.

(** The outcome of the exchange as the method hands it on. *)
Definition exchange (env : Env) (r : Request) : res value :=
  match net env r with
  | Resolve resp => Ok (data resp)
  | Reject err => Throw (VObj err)
  end.

(** One invocation of a registered tool, with the arguments its schema
    admits. *)
Inductive ToolCall :=
| T_hello_world
| T_get_exchange_rate (sourceCurrency destinationCurrency : string)
    (sourceAmount : Z)
| T_find_nearby_atms (latitude longitude : Z) (distance : option Z)
| T_vsm_search (pan : string)
| T_vsm_merchant_details (transactionId : string)
| T_vsm_add_merchant (pan merchantId : string) (reason : option string)
| T_vsm_cancel (stopId : string)
| T_vsps_search_instructions (pan : string)
| T_vsps_search_eligible (pan : string) (days : option Z)
| T_vsps_add_stop (pan : string) (level : Level) (merchantId mcc : option string)
| T_vsps_cancel_stop (stopId : string)
| T_vsps_update_stop (stopId : string) (merchantId notes : option string)
| T_vsps_extend_stop (stopId newEndDate : string).

Definition call_tool (t : ToolCall) : M Envelope :=
  match t with
  | T_hello_world => hello_world
  | T_get_exchange_rate s d a => get_exchange_rate s d a
  | T_find_nearby_atms la lo di => find_nearby_atms la lo di
  | T_vsm_search p => vsm_search p
  | T_vsm_merchant_details t => vsm_merchant_details t
  | T_vsm_add_merchant p m r => vsm_add_merchant p m r
  | T_vsm_cancel s => vsm_cancel s
  | T_vsps_search_instructions p => vsps_search_instructions p
  | T_vsps_search_eligible p d => vsps_search_eligible p d
  | T_vsps_add_stop p l m c => vsps_add_stop p l m c
  | T_vsps_cancel_stop s => vsps_cancel_stop s
  | T_vsps_update_stop s m n => vsps_update_stop s m n
  | T_vsps_extend_stop s e => vsps_extend_stop s e
  end.

(** The client call a tool delegates to, with the arguments the handler
    passes. *)
Definition delegate (t : ToolCall) : Operation :=
  match t with
  | T_hello_world => OpHelloWorld
  | T_get_exchange_rate s d a => OpGetExchangeRate s d a
  | T_find_nearby_atms la lo di =>
      OpFindNearbyAtms la lo (Some (or_number di 5)) None
  | T_vsm_search p => OpVsmSearch p
  | T_vsm_merchant_details t => OpVsmMerchantDetails t
  | T_vsm_add_merchant p m r => OpVsmAddMerchant p m r
  | T_vsm_cancel s => OpVsmCancel s
  | T_vsps_search_instructions p => OpVspsSearchInstructions p
  | T_vsps_search_eligible p d => OpVspsSearchEligible p (Some (or_number d 90))
  | T_vsps_add_stop p l m c => OpVspsAddStop p l m c
  | T_vsps_cancel_stop s => OpVspsCancelStop s
  | T_vsps_update_stop s m n => OpVspsUpdateStop s (build_updates m n)
  | T_vsps_extend_stop s e => OpVspsExtendStop s e
  end.

(** What a handler makes of the payload its client call returned. *)
Definition render (t : ToolCall) (data : value) : res Envelope :=
  match t with
  | T_get_exchange_rate s d a =>
      let? txt := exchange_rate_text s d a data in
      Ok (text_envelope (VStr txt))
  | T_find_nearby_atms _ _ _ =>
      let? txt := atm_text data in
      Ok (text_envelope (VStr txt))
  | _ => Ok (formatResponse data VUndefined)
  end.

(** The envelope of the [catch] clause for an error. *)
Definition failure (error : value) : res Envelope :=
  let? msg := error_text error in
  Ok (formatResponse VNull msg).

(** Projections of an event list. *)
Definition requests_of (evs : list Event) : list Request :=
  flat_map (fun ev => match ev with ERequest r => [r] | _ => [] end) evs.

Definition agents_of (evs : list Event) : list AgentOptions :=
  flat_map (fun ev => match ev with EAgent o => [o] | _ => [] end) evs.

Definition instances_of (evs : list Event) : list AxiosInstance :=
  flat_map (fun ev => match ev with ECreate i => [i] | _ => [] end) evs.

Definition fs_calls_of (evs : list Event) : list Event :=
  filter (fun ev => match ev with
                    | EExistsSync _ | EReadFileSync _ => true
                    | _ => false
                    end) evs.

(** States of the client object. *)
Definition unready (self : VisaClient) : Prop :=
  client self = None /\ initialized self = false.

Definition ready (self : VisaClient) (h : AxiosInstance) : Prop :=
  client self = Some h /\ initialized self = true.

(** The certificate file or the key file is missing. *)
Definition credentials_missing (env : Env) (cfg : VisaClientConfig) : Prop :=
  fs env (certPath cfg) = Absent \/ fs env (keyPath cfg) = Absent.

(** A sequence of operations, each in the environment current when it is
    called; failures are absorbed by the callers, so the client object is
    threaded through and the events accumulate. *)
Fixpoint run_session (calls : list (Env * Operation)) (self : VisaClient)
  : VisaClient * list Event :=
  match calls with
  | [] => (self, [])
  | (env, op) :: rest =>
      let o := perform op env self in
      let '(self', evs) := run_session rest (final o) in
      (self', (events o ++ evs)%list)
  end.

(** [error.response.data.message], when every object on the way is
    present. *)
Definition upstream_message (err : list (string * value)) : option value :=
  match lookup "response" err with
  | Some (VObj response) =>
      match lookup "data" response with
      | Some (VObj d) => lookup "message" d
      | _ => None
      end
  | _ => None
  end.

(** [error.message] *)
Definition generic_message (err : list (string * value)) : option value :=
  lookup "message" err.

(** The error carries no usable upstream message: none at all, or a falsy
    one. *)
Definition no_upstream_message (err : list (string * value)) : Prop :=
  match upstream_message err with
  | Some m => truthy m = false
  | None => True
  end.

Definition error_envelope (msg : value) : Envelope :=
  text_envelope (VStr ("Error: " ++ to_string msg)).

(** [data.responseData.atmList] of an upstream payload, when it is
    there. *)
Definition atm_list_of (data : value) : option value :=
  match data with
  | VObj props =>
      match lookup "responseData" props with
      | Some (VObj responseData) => lookup "atmList" responseData
      | _ => None
      end
  | _ => None
  end.

(** The payload lists zero ATMs or holds no ATM list at all. *)
Definition zero_atms (data : value) : Prop :=
  match atm_list_of data with
  | None => True
  | Some atmList => atmList = VArr [] \/ nullish atmList = true
  end.

Definition no_atms_text : string :=
  "Found 0 ATMs nearby:" ++ newline ++ newline ++ "No ATMs found".

(** The text of an ATM listing: the count, then the summary lines. *)
Definition listing_text (count : nat) (lines : list string) : string :=
  "Found " ++ number_toString (Z.of_nat count) ++ " ATMs nearby:"
  ++ newline ++ newline
  ++ match lines with
     | [] => "No ATMs found"
     | _ => join newline lines
     end.

(** The events of an initialisation that stops at a missing file. *)
Definition abort_events (env : Env) (cfg : VisaClientConfig) : list Event :=
  match fs env (certPath cfg) with
  | Absent =>
      [EExistsSync (certPath cfg);
       EWarn ("⚠️  Warning: Certificate file not found at " ++ certPath cfg);
       EWarn "   Please add your Visa certificates to the certs/ directory.";
       EWarn "   API calls will fail until certificates are configured."]
  | _ =>
      [EExistsSync (certPath cfg);
       EExistsSync (keyPath cfg);
       EWarn ("⚠️  Warning: Key file not found at " ++ keyPath cfg)]
  end.

(** The trust anchor is configured: a non-empty CA path is set. *)
Definition ca_configured (cfg : VisaClientConfig) (p : string) : Prop :=
  caPath cfg = Some p /\ p <> "".

(** The agent and the HTTP instance a successful initialisation builds. *)
Definition expected_ca (env : Env) (cfg : VisaClientConfig) : option string :=
  match caPath cfg with
  | Some p =>
      if String.eqb p "" then None
      else match fs env p with File content => Some content | _ => None end
  | None => None
  end.

Definition expected_agent (env : Env) (cfg : VisaClientConfig)
    (certData keyData : string) : AgentOptions :=
  {| cert := certData; key := keyData; ca := expected_ca env cfg;
     rejectUnauthorized := true |}.

Definition expected_instance (env : Env) (self : VisaClient)
    (certData keyData : string) : AxiosInstance :=
  {| baseURL := baseUrl self;
     httpsAgent := expected_agent env (config self) certData keyData;
     auth_username := userId (config self);
     auth_password := password (config self);
     headers := [("Content-Type", "application/json");
                 ("Accept", "application/json")] |}.

(** No request, agent or instance among these events. *)
Definition quiet (evs : list Event) : Prop :=
  requests_of evs = [] /\ agents_of evs = [] /\ instances_of evs = [].

(** The configuration an agent must carry, given the client configuration
    and the file system it was built from. *)
Definition mutual_tls (cfg : VisaClientConfig) (env : Env) (o : AgentOptions)
  : Prop :=
  fs env (certPath cfg) = File (cert o)
  /\ fs env (keyPath cfg) = File (key o)
  /\ (forall content,
        ca o = Some content <->
        exists p, ca_configured cfg p /\ fs env p = File content)
  /\ rejectUnauthorized o = true.

(** Both credential files can be read, and so can the trust anchor when
    it is configured and exists. *)
Definition credentials_readable (env : Env) (cfg : VisaClientConfig)
    (certData keyData : string) : Prop :=
  fs env (certPath cfg) = File certData /\
  fs env (keyPath cfg) = File keyData /\
  forall p err, ca_configured cfg p -> fs env p <> Unreadable err.

End Spec.

(** ** Sample inputs *)

Module Samples.
Import JS Effects Client Tools Spec.

Definition sample_config : VisaClientConfig :=
  {| userId := "user"; password := "secret";
     certPath := "./certs/cert.pem"; keyPath := "./certs/key.pem";
     caPath := Some "./certs/ca.pem"; environment := sandbox |}.

Definition fresh : VisaClient := new_VisaClient sample_config.

(** A file system with the certificate and the key, and no CA bundle. *)
Definition with_credentials (path : string) : Entry :=
  if String.eqb path "./certs/cert.pem" then File "CERT"
  else if String.eqb path "./certs/key.pem" then File "KEY"
  else Absent.

Definition no_files (path : string) : Entry := Absent.

Definition replying (files : string -> Entry) (reply : Reply) : Env :=
  {| fs := files; now := "2024-05-01T12:00:00.000Z"; net := fun _ => reply |}.

(** An upstream failure whose body carries an empty [message]. *)
Definition empty_upstream_message : list (string * value) :=
  [("message", VStr "Request failed with status code 500");
   ("response",
     VObj [("status", VNum 500); ("data", VObj [("message", VStr "")])])].

(** An upstream failure whose body carries a message. *)
Definition rejected_pan : list (string * value) :=
  [("message", VStr "Request failed with status code 400");
   ("response",
     VObj [("status", VNum 400);
           ("data", VObj [("message", VStr "Invalid PAN")])])].

(** A transport failure whose error has an empty [message]. *)
Definition silent_failure : list (string * value) :=
  [("message", VStr ""); ("code", VStr "ETIMEDOUT")].

Definition atm (name : string) : value :=
  VObj [("atmName", VStr name);
        ("address", VObj [("street", VStr "1 Main St"); ("city", VStr "Reno")]);
        ("distance", VNum 2)].

(** An upstream payload with twelve ATMs, the last one a [null] entry. *)
Definition twelve_atms : list value :=
  [atm "A1"; atm "A2"; atm "A3"; atm "A4"; atm "A5"; atm "A6";
   atm "A7"; atm "A8"; atm "A9"; atm "A10"; atm "A11"; VNull].

Definition atm_payload (atms : list value) : value :=
  VObj [("responseData", VObj [("atmList", VArr atms)])].

Definition ok_reply : Reply := Resolve {| data := VObj [("message", VStr "helloworld")] |}.

(** A client whose first operation succeeded. *)
Definition warmed_up : VisaClient :=
  final (helloWorld (replying with_credentials ok_reply) fresh).

Definition the_handle : AxiosInstance :=
  expected_instance (replying with_credentials ok_reply) fresh "CERT" "KEY".

End Samples.

(** ** Start-up: the configuration read from the process environment *)

Module Startup.
Import JS Effects Client.

(** [process.env]: a variable holds a string or is unset. *)
Definition ProcessEnv := string -> option string.

(** [process.env.NAME || fallback] *)
Definition env_or (v : option string) (fallback : string) : string :=
  match v with
  | Some s => if truthy (VStr s) then s else fallback
  | None => fallback
  end.

(** The object literal handed to [new VisaClient(...)].  The cast of
    [VISA_ENV] checks nothing, so [environment] is whatever string the
    variable holds. *)
Record RawConfig := {
  raw_userId : string;
  raw_password : string;
  raw_certPath : string;
  raw_keyPath : string;
  raw_caPath : option string;
  raw_environment : string
}.

Definition startup_config (penv : ProcessEnv) : RawConfig :=
  {| raw_userId := env_or (penv "VISA_USER_ID") "";
     raw_password := env_or (penv "VISA_PASSWORD") "";
     raw_certPath := env_or (penv "VISA_CERT_PATH") "./certs/cert.pem";
     raw_keyPath := env_or (penv "VISA_KEY_PATH") "./certs/key.pem";
     raw_caPath := penv "VISA_CA_PATH";
     raw_environment := env_or (penv "VISA_ENV") "sandbox" |}.

(** The base URL the constructor derives:
    [config.environment === "sandbox" ? ... : ...]. *)
Definition constructor_baseUrl (environment : string) : string :=
  if String.eqb environment "sandbox" then "https://sandbox.api.visa.com"
  else "https://api.visa.com".

(** The configuration as the client module types it.  The only use the
    client makes of [environment], apart from printing it in the log line
    of [initialize], is the comparison with ["sandbox"]; the typed
    configuration records the outcome of that comparison. *)
Definition typed_config (raw : RawConfig) : VisaClientConfig :=
  {| userId := raw_userId raw;
     password := raw_password raw;
     certPath := raw_certPath raw;
     keyPath := raw_keyPath raw;
     caPath := raw_caPath raw;
     environment := if String.eqb (raw_environment raw) "sandbox"
                    then sandbox else production |}.

(** [const visaClient = new VisaClient({...})] *)
Definition visaClient (penv : ProcessEnv) : VisaClient :=
  new_VisaClient (typed_config (startup_config penv)).

End Startup.

(** ** The registry of SSE transports *)

Module Registry.
Import JS.

(** [const transports = new Map<string, SSEServerTransport>()].  A [Map]
    keeps its entries in insertion order; a transport is identified by the
    number of the connection that created it. *)
Definition Transports := list (string * nat).

(** [Map.prototype.get] *)
Fixpoint map_get (k : string) (m : Transports) : option nat :=
  match m with
  | [] => None
  | (k', t) :: rest => if String.eqb k k' then Some t else map_get k rest
  end.

(** [Map.prototype.set]: the value of an existing key is replaced in
    place, a new key is appended. *)
Fixpoint map_set (k : string) (t : nat) (m : Transports) : Transports :=
  match m with
  | [] => [(k, t)]
  | (k', t') :: rest =>
      if String.eqb k k' then (k, t) :: rest else (k', t') :: map_set k t rest
  end.

(** [Map.prototype.delete] *)
Fixpoint map_delete (k : string) (m : Transports) : Transports :=
  match m with
  | [] => []
  | (k', t') :: rest =>
      if String.eqb k k' then rest else (k', t') :: map_delete k rest
  end.

(** The handler of [GET /mcp], up to the hand-over of the transport to the
    MCP server: the session identifier is [Date.now().toString()] and the
    transport is stored under it.  The identifier is what the [close]
    listener keeps. *)
Definition open_connection (now_ms : Z) (transport : nat) (m : Transports)
  : string * Transports :=
  let sessionId := number_toString now_ms in
  (sessionId, map_set sessionId transport m).

(** [res.on("close", () => { transports.delete(sessionId) })] *)
Definition on_close (sessionId : string) (m : Transports) : Transports :=
  map_delete sessionId m.

End Registry.

(** ** More vocabulary *)

Module Coverage.
Import JS Effects Client Tools Spec.

(** The handle carries the base URL of the environment, the credentials of
    the configuration, JSON headers and an agent that verifies the
    server. *)
Definition configured_for (cfg : VisaClientConfig) (h : AxiosInstance) : Prop :=
  baseURL h = baseUrl (new_VisaClient cfg)
  /\ auth_username h = userId cfg
  /\ auth_password h = password cfg
  /\ headers h = [("Content-Type", "application/json");
                  ("Accept", "application/json")]
  /\ rejectUnauthorized (httpsAgent h) = true.

(** The text of the only content item of an envelope. *)
Definition text_of (envelope : Envelope) : value :=
  match content envelope with
  | [item] => text item
  | _ => VUndefined
  end.

(** The text reads as a failure: it is a string that starts with
    ["Error: "]. *)
Definition reads_as_error (t : value) : bool :=
  match t with
  | VStr s => String.prefix "Error: " s
  | _ => false
  end.

(** What the exchange-rate text shows for a field of the payload. *)
Definition shown (k : string) (props : list (string * value)) : string :=
  match lookup k props with
  | Some v => if truthy v then to_string v else "N/A"
  | None => "N/A"
  end.

(** The last value a property list gives to a key. *)
Definition last_value (k : string) (props : list (string * value))
  : option value :=
  lookup k (rev props).

(** The file that stops the initialisation although it exists: the
    certificate, the key, or the configured trust anchor. *)
Definition unreadable_credential (env : Env) (cfg : VisaClientConfig)
    (err : list (string * value)) : Prop :=
  (fs env (certPath cfg) = Unreadable err /\ fs env (keyPath cfg) <> Absent)
  \/ (exists certData,
        fs env (certPath cfg) = File certData /\
        fs env (keyPath cfg) = Unreadable err)
  \/ (exists certData keyData p,
        fs env (certPath cfg) = File certData /\
        fs env (keyPath cfg) = File keyData /\
        ca_configured cfg p /\ fs env p = Unreadable err).

End Coverage.

(** ** More sample inputs *)

Module Cases.
Import JS Effects Client Tools Spec.

Definition eacces : list (string * value) :=
  [("message", VStr "EACCES: permission denied, open './certs/ca.pem'");
   ("code", VStr "EACCES")].

(** The certificate and the key can be read, the CA bundle exists and
    cannot. *)
Definition locked_ca (path : string) : Entry :=
  if String.eqb path "./certs/ca.pem" then Unreadable eacces
  else Samples.with_credentials path.

Definition bare_atm : value := VObj [].

Definition rate_payload : list (string * value) :=
  [("conversionRate", VNum 0); ("destinationAmount", VStr "92.10")].

(** A process environment with just [VISA_ENV]. *)
Definition only_visa_env (v : string) : Startup.ProcessEnv :=
  fun name => if String.eqb name "VISA_ENV" then Some v else None.

End Cases.

(** ** Properties *)

Import JS Effects Client Tools Spec.
Local Open Scope list_scope.

(** *** Initialisation and the handle *)

Lemma initialize_when_initialized env self :
  initialized self = true ->
  initialize env self = {| result := Ok tt; final := self; events := [] |}.
Proof.
  intros H. unfold initialize, bind, this. rewrite H. reflexivity.
Qed.

Lemma initialize_credentials_missing env self :
  initialized self = false ->
  credentials_missing env (config self) ->
  initialize env self =
    {| result := Ok tt; final := self;
       events := abort_events env (config self) |}.
Proof.
  intros Hi Hm. unfold credentials_missing in Hm.
  unfold initialize, abort_events.
  unfold bind at 1. unfold this. rewrite Hi.
  unfold bind at 1. unfold existsSync, console_warn, emit, ask, ret, bind, after.
  destruct (fs env (certPath (config self))) eqn:Ec; simpl.
  - reflexivity.
  - destruct Hm as [Hm | Hm]; [discriminate|]. rewrite Hm. reflexivity.
  - destruct Hm as [Hm | Hm]; [discriminate|]. rewrite Hm. reflexivity.
Qed.

Lemma getClient_unfold env self :
  getClient env self =
  match initialize env self with
  | {| result := Ok _; final := s; events := evs |} =>
      match client s with
      | None => {| result := Throw (error_object not_initialized_message);
                   final := s; events := evs |}
      | Some c => {| result := Ok c; final := s; events := evs |}
      end
  | {| result := Throw e; final := s; events := evs |} =>
      {| result := Throw e; final := s; events := evs |}
  end.
Proof.
  unfold getClient. unfold bind at 1.
  destruct (initialize env self) as [[[]|e] s evs]; [|reflexivity].
  unfold bind, this, after.
  destruct (client s); unfold ret, throw; rewrite app_nil_r; reflexivity.
Qed.

Lemma getClient_ready env self h :
  ready self h ->
  getClient env self = {| result := Ok h; final := self; events := [] |}.
Proof.
  intros [Hc Hi]. rewrite getClient_unfold, (initialize_when_initialized _ _ Hi).
  rewrite Hc. reflexivity.
Qed.

Lemma getClient_credentials_missing env self :
  unready self ->
  credentials_missing env (config self) ->
  getClient env self =
    {| result := Throw (error_object not_initialized_message);
       final := self; events := abort_events env (config self) |}.
Proof.
  intros [Hc Hi] Hm.
  rewrite getClient_unfold, (initialize_credentials_missing _ _ Hi Hm).
  rewrite Hc. reflexivity.
Qed.

(** Every method is: obtain the handle, send one request through it, hand
    back the payload of the response. *)
Lemma perform_cases op env self :
  match getClient env self with
  | {| result := Throw e; final := s; events := evs |} =>
      perform op env self = {| result := Throw e; final := s; events := evs |}
  | {| result := Ok c; final := s; events := evs |} =>
      perform op env self =
        {| result := exchange env (request_of op env c);
           final := s; events := evs ++ [ERequest (request_of op env c)] |}
  end.
Proof.
  destruct op; unfold perform;
    unfold helloWorld, getExchangeRate, findNearbyAtms, vsmSearch,
      vsmMerchantDetails, vsmAddMerchant, vsmCancel, vspsSearchInstructions,
      vspsSearchEligible, vspsAddStop, vspsCancelStop, vspsUpdateStop,
      vspsExtendStop;
    destruct (getClient env self) as [[c|e] s evs] eqn:Eg;
    unfold bind at 1; rewrite Eg; try reflexivity;
    unfold Date_now_toISOString, axios_get, axios_post, send, bind, emit, ask,
      ret, throw, after, exchange, request_of;
    cbn [verb_of path_of payload_of];
    lazymatch goal with
    | |- context [net env ?r] => destruct (net env r)
    end;
    reflexivity.
Qed.

Lemma events_after {A} evs (o : Outcome A) :
  events (after evs o) = evs ++ events o.
Proof. destruct o; reflexivity. Qed.

Lemma requests_of_app evs evs' :
  requests_of (evs ++ evs') = requests_of evs ++ requests_of evs'.
Proof. apply flat_map_app. Qed.

Lemma agents_of_app evs evs' :
  agents_of (evs ++ evs') = agents_of evs ++ agents_of evs'.
Proof. apply flat_map_app. Qed.

Lemma instances_of_app evs evs' :
  instances_of (evs ++ evs') = instances_of evs ++ instances_of evs'.
Proof. apply flat_map_app. Qed.

Lemma abort_events_quiet env cfg :
  requests_of (abort_events env cfg) = [] /\
  agents_of (abort_events env cfg) = [] /\
  instances_of (abort_events env cfg) = [].
Proof. unfold abort_events. destruct (fs env (certPath cfg)); repeat split. Qed.

(** Symbolic execution of the sequencing and of the library calls. *)

Lemma bind_ok {A B} (m : M A) (f : A -> M B) env self a self' evs :
  m env self = {| result := Ok a; final := self'; events := evs |} ->
  bind m f env self = after evs (f a env self').
Proof. intros H. unfold bind. rewrite H. reflexivity. Qed.

Lemma bind_throw {A B} (m : M A) (f : A -> M B) env self e self' evs :
  m env self = {| result := Throw e; final := self'; events := evs |} ->
  bind m f env self = {| result := Throw e; final := self'; events := evs |}.
Proof. intros H. unfold bind. rewrite H. reflexivity. Qed.

Lemma existsSync_run p env self :
  existsSync p env self =
    {| result := Ok (match fs env p with Absent => false | _ => true end);
       final := self; events := [EExistsSync p] |}.
Proof. reflexivity. Qed.

Lemma readFileSync_file p env self content :
  fs env p = File content ->
  readFileSync p env self =
    {| result := Ok content; final := self; events := [EReadFileSync p] |}.
Proof.
  intros H. unfold readFileSync, bind, emit, ask, ret, after. rewrite H.
  reflexivity.
Qed.

Lemma readFileSync_unreadable p env self err :
  fs env p = Unreadable err ->
  readFileSync p env self =
    {| result := Throw (VObj err); final := self; events := [EReadFileSync p] |}.
Proof.
  intros H. unfold readFileSync, bind, emit, ask, ret, after. rewrite H.
  reflexivity.
Qed.

Lemma this_run env self :
  this env self = {| result := Ok self; final := self; events := [] |}.
Proof. reflexivity. Qed.

Lemma emit_run ev env self :
  emit ev env self = {| result := Ok tt; final := self; events := [ev] |}.
Proof. reflexivity. Qed.

(** One step of the outermost sequencing. *)
Ltac step :=
  first
    [ erewrite bind_ok by
        first [ apply this_run | apply existsSync_run
              | apply readFileSync_file; eassumption
              | apply emit_run | reflexivity ]
    | erewrite bind_throw by
        first [ apply readFileSync_unreadable; eassumption | reflexivity ] ];
  cbv beta; unfold negb.

Lemma read_ca_run env self :
  (forall p err, ca_configured (config self) p -> fs env p <> Unreadable err) ->
  exists evs,
    read_ca (caPath (config self)) env self =
      {| result := Ok (expected_ca env (config self)); final := self;
         events := evs |}
    /\ requests_of evs = [] /\ agents_of evs = [] /\ instances_of evs = [].
Proof.
  intros Hca. unfold read_ca, expected_ca, ca_configured in *.
  destruct (caPath (config self)) as [p|].
  2: { exists []. repeat split. }
  unfold truthy. destruct (String.eqb p "") eqn:Ep.
  { exists []. repeat split. }
  apply String.eqb_neq in Ep.
  unfold existsSync, readFileSync, bind, emit, ask, ret, throw, after.
  simpl.
  destruct (fs env p) as [|err|content] eqn:Ef; simpl; rewrite ?Ef; simpl.
  - exists [EExistsSync p]. repeat split.
  - exfalso. exact (Hca p err (conj eq_refl Ep) Ef).
  - exists [EExistsSync p; EReadFileSync p]. repeat split.
Qed.

Lemma read_ca_unreadable p env self err :
  (p =? "")%string = false ->
  fs env p = Unreadable err ->
  read_ca (Some p) env self =
    {| result := Throw (VObj err); final := self;
       events := [EExistsSync p; EReadFileSync p] |}.
Proof.
  intros Hne Hf. unfold read_ca, truthy. rewrite Hne. unfold negb.
  step. rewrite Hf. cbv iota. step. reflexivity.
Qed.

Lemma initialize_builds env self certData keyData :
  initialized self = false ->
  credentials_readable env (config self) certData keyData ->
  exists evs,
    initialize env self =
      {| result := Ok tt;
         final := {| client := Some (expected_instance env self certData keyData);
                     config := config self; baseUrl := baseUrl self;
                     initialized := true |};
         events := evs |}
    /\ requests_of evs = []
    /\ agents_of evs = [expected_agent env (config self) certData keyData]
    /\ instances_of evs = [expected_instance env self certData keyData].
Proof.
  intros Hi (Hc & Hk & Hca).
  destruct (read_ca_run env self Hca) as (cevs & Hrun & Hr & Ha & Hn).
  unfold initialize. unfold bind at 1. unfold this. rewrite Hi.
  unfold bind at 1. unfold existsSync at 1. unfold bind at 1, emit at 1.
  unfold bind at 1, ask at 1. unfold ret at 1. rewrite Hc. unfold after at 2 3.
  cbv beta iota. unfold negb.
  unfold bind at 1. unfold existsSync at 1. unfold bind at 1, emit at 1.
  unfold bind at 1, ask at 1. unfold ret at 1. rewrite Hk. unfold after at 3 4.
  cbv beta iota.
  unfold bind at 1. unfold readFileSync at 1. unfold bind at 1, emit at 1.
  unfold bind at 1, ask at 1. rewrite Hc. unfold ret at 1. unfold after at 4 5.
  cbv beta iota.
  unfold bind at 1. unfold readFileSync at 1. unfold bind at 1, emit at 1.
  unfold bind at 1, ask at 1. rewrite Hk. unfold ret at 1. unfold after at 5 6.
  cbv beta iota.
  unfold bind at 1. rewrite Hrun.
  unfold new_Agent, axios_create, set_client, set_initialized, console_log,
    assign, bind, emit, ret, after. cbv beta iota.
  eexists. split; [reflexivity|].
  rewrite ?requests_of_app, ?agents_of_app, ?instances_of_app, Hr, Ha, Hn.
  repeat split.
Qed.

(** The three ways an initialisation of a client that is not yet
    initialised can end: a credential file is missing, the channel is
    built, or a file that exists cannot be read. *)
Lemma initialize_outcome env self :
  initialized self = false ->
  (credentials_missing env (config self) /\
   initialize env self =
     {| result := Ok tt; final := self;
        events := abort_events env (config self) |})
  \/ (exists certData keyData evs,
        credentials_readable env (config self) certData keyData /\
        initialize env self =
          {| result := Ok tt;
             final := {| client := Some (expected_instance env self certData keyData);
                         config := config self; baseUrl := baseUrl self;
                         initialized := true |};
             events := evs |}
        /\ requests_of evs = []
        /\ agents_of evs = [expected_agent env (config self) certData keyData]
        /\ instances_of evs = [expected_instance env self certData keyData])
  \/ (exists err evs,
        initialize env self =
          {| result := Throw (VObj err); final := self; events := evs |}
        /\ quiet evs).
Proof.
  intros Hi.
  destruct (fs env (certPath (config self))) as [|cerr|certData] eqn:Ec.
  { left. assert (Hm : credentials_missing env (config self)) by (left; exact Ec).
    split; [exact Hm|]. apply initialize_credentials_missing; assumption. }
  all: destruct (fs env (keyPath (config self))) as [|kerr|keyData] eqn:Ek.
  all: try (left;
            assert (Hm : credentials_missing env (config self)) by (right; exact Ek);
            split; [exact Hm|]; apply initialize_credentials_missing; assumption).
  - right; right. exists cerr. eexists. split.
    { unfold initialize. step. rewrite Hi. step. rewrite Ec. cbv iota.
      step. rewrite Ek. cbv iota. step. reflexivity. }
    repeat split.
  - right; right. exists cerr. eexists. split.
    { unfold initialize. step. rewrite Hi. step. rewrite Ec. cbv iota.
      step. rewrite Ek. cbv iota. step. reflexivity. }
    repeat split.
  - right; right. exists kerr. eexists. split.
    { unfold initialize. step. rewrite Hi. step. rewrite Ec. cbv iota.
      step. rewrite Ek. cbv iota. step. step. reflexivity. }
    repeat split.
  - assert (Hdec : (forall p err, ca_configured (config self) p ->
                                  fs env p <> Unreadable err)
                   \/ exists p err, ca_configured (config self) p /\
                                    fs env p = Unreadable err).
    { unfold ca_configured. destruct (caPath (config self)) as [p|].
      2: { left. intros p err [H _]. discriminate. }
      destruct (String.eqb p "") eqn:Ep.
      { apply String.eqb_eq in Ep. left. intros p' err [H Hne].
        injection H as <-. contradiction. }
      apply String.eqb_neq in Ep.
      destruct (fs env p) as [|err|content] eqn:Ef.
      - left. intros p' err [H _]. injection H as <-. rewrite Ef. discriminate.
      - right. exists p, err. repeat split; assumption.
      - left. intros p' err [H _]. injection H as <-. rewrite Ef. discriminate. }
    destruct Hdec as [Hca | (p & err & [Hp Hne] & Hf)].
    + right; left. exists certData, keyData.
      assert (Hr : credentials_readable env (config self) certData keyData)
        by (repeat split; assumption).
      destruct (initialize_builds env self certData keyData Hi Hr)
        as (evs & H1 & H2 & H3 & H4).
      exists evs. repeat split; assumption.
    + right; right.
      apply String.eqb_neq in Hne.
      exists err. eexists. split.
      { unfold initialize. step. rewrite Hi. step. rewrite Ec. cbv iota.
        step. rewrite Ek. cbv iota. step. step.
        rewrite Hp.
        erewrite bind_throw by (apply read_ca_unreadable; eassumption).
        reflexivity. }
      repeat split.
Qed.

Ltac fact :=
  first
    [ reflexivity
    | assumption
    | congruence
    | intros ? [= <-]; first [ assumption | eexists; reflexivity ]
    | intros ? []
    | exfalso; match goal with H : In _ _ |- _ => exact H end ].

(** What holds of [getClient] in every state and environment. *)
Lemma getClient_facts env self :
  requests_of (events (getClient env self)) = [] /\
  config (final (getClient env self)) = config self /\
  (forall c, result (getClient env self) = Ok c ->
             client (final (getClient env self)) = Some c) /\
  (forall e, result (getClient env self) = Throw e -> exists err, e = VObj err) /\
  (forall o, In o (agents_of (events (getClient env self))) ->
             exists certData keyData,
               credentials_readable env (config self) certData keyData /\
               o = expected_agent env (config self) certData keyData) /\
  (forall i, In i (instances_of (events (getClient env self))) ->
             initialized self = false /\
             client (final (getClient env self)) = Some i /\
             In (httpsAgent i) (agents_of (events (getClient env self)))).
Proof.
  rewrite getClient_unfold.
  destruct (initialized self) eqn:Hi.
  - rewrite (initialize_when_initialized _ _ Hi).
    destruct (client self) eqn:Hc; cbn [result final events];
      repeat split; fact.
  - destruct (initialize_outcome env self Hi)
      as [[Hm ->] | [(c & k & evs & Hr & -> & Hq & Ha & Hn) | (err & evs & -> & Hq & Ha & Hn)]].
    + destruct (abort_events_quiet env (config self)) as (Q1 & Q2 & Q3).
      destruct (client self) eqn:Hc; cbn [result final events];
        rewrite ?Q1, ?Q2, ?Q3; repeat split; fact.
    + cbn [result final events client config].
      rewrite Hq, Ha, Hn.
      split; [reflexivity|]. split; [reflexivity|].
      split; [intros ? [= <-]; reflexivity|].
      split; [intros ? [=]|].
      split.
      * intros o [<- | []]. exists c, k. split; [assumption | reflexivity].
      * intros i [<- | []]. repeat split. left; reflexivity.
    + cbn [result final events]. rewrite Hq, Ha, Hn.
      repeat split; fact.
Qed.

Lemma perform_ready op env self h :
  ready self h ->
  perform op env self =
    {| result := exchange env (request_of op env h);
       final := self; events := [ERequest (request_of op env h)] |}.
Proof.
  intros Hr. pose proof (perform_cases op env self) as H.
  rewrite (getClient_ready env self h Hr) in H. exact H.
Qed.

(** C1: when the handle is absent because the certificate or the key file
    is missing, every client operation throws the "not initialized" error
    that points at the certificates, sends no request, and leaves the
    client as it was. *)
Theorem C1_unready_operation_throws op env self :
  unready self ->
  credentials_missing env (config self) ->
  result (perform op env self) = Throw (error_object not_initialized_message)
  /\ requests_of (events (perform op env self)) = []
  /\ final (perform op env self) = self.
Proof.
  intros Hu Hm. pose proof (perform_cases op env self) as H.
  rewrite (getClient_credentials_missing env self Hu Hm) in H.
  rewrite H. cbn [result final events].
  destruct (abort_events_quiet env (config self)) as (Q & _).
  repeat split. exact Q.
Qed.

Lemma C1_unready_operation_throws_witness :
  unready Samples.fresh /\
  credentials_missing (Samples.replying Samples.no_files Samples.ok_reply)
    (config Samples.fresh) /\
  result (perform (OpGetExchangeRate "USD" "EUR" 100)
            (Samples.replying Samples.no_files Samples.ok_reply) Samples.fresh)
    = Throw (error_object not_initialized_message).
Proof.
  assert (Hu : unready Samples.fresh) by (split; reflexivity).
  assert (Hm : credentials_missing
                 (Samples.replying Samples.no_files Samples.ok_reply)
                 (config Samples.fresh)) by (left; reflexivity).
  split; [exact Hu|]. split; [exact Hm|].
  exact (proj1 (C1_unready_operation_throws _ _ _ Hu Hm)).
Defined.

Lemma getClient_events env self :
  events (getClient env self) = events (initialize env self)
  /\ final (getClient env self) = final (initialize env self).
Proof.
  rewrite getClient_unfold.
  destruct (initialize env self) as [[[]|e] s evs]; cbn [events final];
    [destruct (client s)|]; split; reflexivity.
Qed.

Lemma perform_events op env self :
  final (perform op env self) = final (initialize env self) /\
  exists tail,
    events (perform op env self) = events (initialize env self) ++ tail.
Proof.
  pose proof (perform_cases op env self) as H.
  destruct (getClient_events env self) as [<- <-].
  destruct (getClient env self) as [[c|e] s evs].
  - rewrite H. split; [reflexivity|]. eexists; reflexivity.
  - rewrite H. split; [reflexivity|]. exists []. symmetry; apply app_nil_r.
Qed.

(** A client that is not initialised starts every initialisation with the
    existence check of the certificate, then of the key. *)
Lemma initialize_rechecks env self :
  initialized self = false ->
  exists rest,
    events (initialize env self) = EExistsSync (certPath (config self)) :: rest
    /\ (fs env (certPath (config self)) <> Absent ->
        exists rest',
          rest = EExistsSync (keyPath (config self)) :: rest').
Proof.
  intros Hi. unfold initialize. step. rewrite Hi. step.
  rewrite !events_after. eexists. split; [reflexivity|].
  intros Hc.
  destruct (fs env (certPath (config self))); [contradiction| |];
    cbv iota; step; rewrite events_after; eexists; reflexivity.
Qed.

(** C2: an initialisation that stops at a missing certificate or key file
    leaves the client object as it was (no handle, flag false); the next
    operation, whatever it is, checks the same two paths again, and builds
    the channel as soon as the files can be read. *)
Theorem C2_failed_initialize_not_cached env self :
  unready self ->
  credentials_missing env (config self) ->
  let self' := final (initialize env self) in
  result (initialize env self) = Ok tt
  /\ self' = self
  /\ client self' = None /\ initialized self' = false
  /\ quiet (events (initialize env self))
  /\ (forall op env',
        exists rest,
          events (perform op env' self')
            = EExistsSync (certPath (config self)) :: rest
          /\ (fs env' (certPath (config self)) <> Absent ->
              exists rest',
                rest = EExistsSync (keyPath (config self)) :: rest'))
  /\ (forall op env' certData keyData,
        credentials_readable env' (config self) certData keyData ->
        ready (final (perform op env' self'))
              (expected_instance env' self certData keyData)
        /\ exists r, requests_of (events (perform op env' self')) = [r]).
Proof.
  intros [Hc Hi] Hm. cbv zeta.
  rewrite (initialize_credentials_missing env self Hi Hm).
  cbn [result final events].
  split; [reflexivity|]. split; [reflexivity|].
  split; [exact Hc|]. split; [exact Hi|].
  split; [apply abort_events_quiet|]. split.
  - intros op env'.
    destruct (perform_events op env' self) as (_ & tail & ->).
    destruct (initialize_rechecks env' self Hi) as (rest & -> & Hk).
    exists (rest ++ tail). split; [reflexivity|].
    intros Hp. destruct (Hk Hp) as (rest' & ->).
    exists (rest' ++ tail). reflexivity.
  - intros op env' certData keyData Hr.
    destruct (initialize_builds env' self certData keyData Hi Hr)
      as (evs & Hrun & Hq & _).
    pose proof (perform_cases op env' self) as H.
    rewrite getClient_unfold, Hrun in H. cbn [client] in H.
    rewrite H. cbn [final events]. split.
    + split; reflexivity.
    + eexists. rewrite requests_of_app, Hq. reflexivity.
Qed.

Lemma C2_failed_initialize_not_cached_witness :
  unready Samples.fresh /\
  credentials_missing (Samples.replying Samples.no_files Samples.ok_reply)
    (config Samples.fresh) /\
  final (initialize (Samples.replying Samples.no_files Samples.ok_reply)
           Samples.fresh) = Samples.fresh.
Proof.
  assert (Hu : unready Samples.fresh) by (split; reflexivity).
  assert (Hm : credentials_missing
                 (Samples.replying Samples.no_files Samples.ok_reply)
                 (config Samples.fresh)) by (left; reflexivity).
  split; [exact Hu|]. split; [exact Hm|].
  exact (proj1 (proj2 (C2_failed_initialize_not_cached _ _ Hu Hm))).
Defined.

(** C3: once the client is ready, [initialize] returns at once without any
    effect, and through any sequence of operations, in any environments,
    the client object stays the same, every request goes through the one
    handle, no agent or HTTP instance is built and no file is touched. *)
Theorem C3_handle_reused self h :
  ready self h ->
  (forall env,
     initialize env self = {| result := Ok tt; final := self; events := [] |})
  /\ (forall calls,
        fst (run_session calls self) = self
        /\ agents_of (snd (run_session calls self)) = []
        /\ instances_of (snd (run_session calls self)) = []
        /\ fs_calls_of (snd (run_session calls self)) = []
        /\ length (requests_of (snd (run_session calls self))) = length calls
        /\ Forall (fun r => via r = h)
             (requests_of (snd (run_session calls self)))).
Proof.
  intros Hr. split.
  - intros env. apply initialize_when_initialized. apply Hr.
  - induction calls as [|[env op] calls IH]; cbn [run_session].
    + repeat split. constructor.
    + rewrite (perform_ready op env self h Hr).
      cbn [final events].
      destruct (run_session calls self) as [self' evs].
      cbn [fst snd] in *. destruct IH as (-> & Ha & Hn & Hf & Hl & Hall).
      cbn [app agents_of instances_of fs_calls_of requests_of flat_map filter].
      fold (agents_of evs) (instances_of evs) (fs_calls_of evs) (requests_of evs).
      repeat split; try assumption.
      * cbn [length]. now rewrite Hl.
      * constructor; [reflexivity | assumption].
Qed.

Lemma C3_handle_reused_witness :
  ready Samples.warmed_up Samples.the_handle /\
  fst (run_session
         [(Samples.replying Samples.no_files Samples.ok_reply, OpVsmSearch "4111")]
         Samples.warmed_up) = Samples.warmed_up.
Proof.
  assert (Hr : ready Samples.warmed_up Samples.the_handle)
    by (split; reflexivity).
  split; [exact Hr|].
  exact (proj1 (proj2 (C3_handle_reused _ _ Hr) _)).
Defined.

Lemma expected_ca_iff env cfg content :
  expected_ca env cfg = Some content <->
  exists p, ca_configured cfg p /\ fs env p = File content.
Proof.
  unfold expected_ca, ca_configured. split.
  - destruct (caPath cfg) as [p|]; [|discriminate].
    destruct (String.eqb p "") eqn:Ep; [discriminate|].
    apply String.eqb_neq in Ep.
    destruct (fs env p) eqn:Ef; try discriminate.
    intros [= <-]. exists p. repeat split; assumption.
  - intros (p & [-> Hne] & Hf). apply String.eqb_neq in Hne.
    rewrite Hne, Hf. reflexivity.
Qed.

Lemma perform_facts op env self :
  config (final (perform op env self)) = config self /\
  agents_of (events (perform op env self))
    = agents_of (events (getClient env self)) /\
  instances_of (events (perform op env self))
    = instances_of (events (getClient env self)).
Proof.
  pose proof (perform_cases op env self) as H.
  destruct (getClient_facts env self) as (_ & Hcfg & _).
  destruct (getClient env self) as [[c|e] s evs]; cbn [final events] in *.
  - rewrite H. cbn [final events].
    rewrite agents_of_app, instances_of_app. cbn. rewrite !app_nil_r.
    repeat split. exact Hcfg.
  - rewrite H. repeat split. exact Hcfg.
Qed.

(** C6: through any sequence of operations, the agent of every HTTP
    instance that is created is one of the agents constructed, and every
    agent constructed carries the content of the certificate file and of the
    key file, the content of the CA file exactly when a CA path is
    configured and that file is there, and [rejectUnauthorized = true]. *)
Theorem C6_agent_configuration calls self :
  (forall i, In i (instances_of (snd (run_session calls self))) ->
             In (httpsAgent i) (agents_of (snd (run_session calls self))))
  /\ (forall o, In o (agents_of (snd (run_session calls self))) ->
                rejectUnauthorized o = true /\
                exists env, In env (map fst calls) /\
                            mutual_tls (config self) env o).
Proof.
  revert self. induction calls as [|[env op] calls IH]; intros self;
    cbn [run_session].
  - split; intros ? [].
  - destruct (perform_facts op env self) as (Hcfg & Ha & Hn).
    destruct (getClient_facts env self) as (_ & _ & _ & _ & Hag & Hin).
    specialize (IH (final (perform op env self))).
    destruct (run_session calls (final (perform op env self))) as [self' evs].
    cbn [snd] in *. rewrite agents_of_app, instances_of_app, Ha, Hn.
    destruct IH as [IHi IHo]. split.
    + intros i Hi. apply in_app_or in Hi. apply in_or_app.
      destruct Hi as [Hi | Hi]; [left; apply Hin; exact Hi | right; auto].
    + intros o Ho. apply in_app_or in Ho. destruct Ho as [Ho | Ho].
      * destruct (Hag o Ho) as (c & k & (Hc & Hk & _) & ->).
        split; [reflexivity|]. exists env. split; [left; reflexivity|].
        repeat split; try assumption; cbn [ca expected_agent];
          apply expected_ca_iff.
      * destruct (IHo o Ho) as (Hrej & env' & Hin' & Hm).
        split; [assumption|]. exists env'. split; [right; assumption|].
        rewrite <- Hcfg. exact Hm.
Qed.

Lemma C6_agent_configuration_witness :
  rejectUnauthorized
    (expected_agent (Samples.replying Samples.with_credentials Samples.ok_reply)
       Samples.sample_config "CERT" "KEY") = true.
Proof.
  refine (proj1 (proj2 (C6_agent_configuration
            [(Samples.replying Samples.with_credentials Samples.ok_reply,
              OpHelloWorld)] Samples.fresh) _ _)).
  left. reflexivity.
Defined.

(** C7: an operation sends exactly one request when the handle is
    obtained, whether the exchange then succeeds or fails, and none
    otherwise; the request is a GET for the connectivity check and a POST
    for every other operation, to the path bound to the operation. *)
Theorem C7_single_request op env self :
  match result (getClient env self) with
  | Ok c =>
      requests_of (events (perform op env self))
        = [{| via := c; verb := verb_of op; url := path_of op;
              body := payload_of op env |}]
  | Throw _ => requests_of (events (perform op env self)) = []
  end
  /\ (verb_of op = GET <-> op = OpHelloWorld)
  /\ (verb_of op = POST <-> op <> OpHelloWorld).
Proof.
  split.
  - pose proof (perform_cases op env self) as H.
    destruct (getClient_facts env self) as (Hq & _).
    destruct (getClient env self) as [[c|e] s evs]; cbn [result events] in *.
    + rewrite H. cbn [events]. rewrite requests_of_app, Hq. reflexivity.
    + rewrite H. exact Hq.
  - destruct op; cbn; repeat split; intros H; try reflexivity;
      try discriminate; try congruence.
Qed.

(** The client object is always in one of the two states: without handle
    and not initialised, or with a handle and initialised. *)
Lemma session_invariant calls : forall self,
  unready self \/ (exists h, ready self h) ->
  unready (fst (run_session calls self))
  \/ (exists h, ready (fst (run_session calls self)) h).
Proof.
  induction calls as [|[env op] calls IH]; intros self Hinv;
    cbn [run_session]; [exact Hinv|].
  specialize (IH (final (perform op env self))).
  destruct (run_session calls (final (perform op env self))) as [self' evs].
  cbn [fst] in *. apply IH. clear IH.
  destruct (perform_events op env self) as (-> & _).
  destruct Hinv as [[Hc Hi] | (h & Hc & Hi)].
  - destruct (initialize_outcome env self Hi)
      as [[_ ->] | [(c & k & evs' & _ & -> & _) | (err & evs' & -> & _)]];
      cbn [final].
    + left; split; assumption.
    + right. eexists. split; reflexivity.
    + left; split; assumption.
  - rewrite (initialize_when_initialized env self Hi). right. exists h.
    split; assumption.
Qed.

(** *** The tool adapter *)

Lemma on_error_run error env self :
  on_error error env self =
    {| result := failure error; final := self; events := [] |}.
Proof.
  unfold on_error, failure, bind, lift.
  destruct (error_text error); reflexivity.
Qed.

(** A handler adds neither an effect nor a state change to its client call:
    it turns the payload into an envelope, and any error, of the call or of
    the rendering, into the envelope of the [catch] clause. *)
Lemma call_tool_cases t env self :
  call_tool t env self =
    {| result := match result (perform (delegate t) env self) with
                 | Ok data =>
                     match render t data with
                     | Ok envelope => Ok envelope
                     | Throw e => failure e
                     end
                 | Throw e => failure e
                 end;
       final := final (perform (delegate t) env self);
       events := events (perform (delegate t) env self) |}.
Proof.
  destruct t; unfold call_tool, delegate, perform, render;
    unfold hello_world, get_exchange_rate, find_nearby_atms, vsm_search,
      vsm_merchant_details, vsm_add_merchant, vsm_cancel,
      vsps_search_instructions, vsps_search_eligible, vsps_add_stop,
      vsps_cancel_stop, vsps_update_stop, vsps_extend_stop;
    unfold try_catch; unfold bind at 1;
    lazymatch goal with
    | |- context [match ?m env self with _ => _ end] =>
        destruct (m env self) as [[data|e] s evs]
    end;
    cbn [result final events];
    rewrite ?on_error_run; unfold bind, lift, ret, throw, after, res_bind;
    try (rewrite app_nil_r; reflexivity).
  all: lazymatch goal with
       | |- context [exchange_rate_text ?a ?b ?c ?d] =>
           destruct (exchange_rate_text a b c d)
       | |- context [atm_text ?d] => destruct (atm_text d)
       end;
       rewrite ?on_error_run; cbn [after]; rewrite !app_nil_r; reflexivity.
Qed.

Lemma perform_throws_object op env self e :
  result (perform op env self) = Throw e -> exists err, e = VObj err.
Proof.
  pose proof (perform_cases op env self) as H.
  destruct (getClient_facts env self) as (_ & _ & _ & Hobj & _).
  destruct (getClient env self) as [[c|x] s evs]; cbn [result] in *;
    rewrite H; cbn [result].
  - unfold exchange. destruct (net env _); [discriminate|].
    intros [= <-]. eexists; reflexivity.
  - intros [= <-]. apply Hobj. reflexivity.
Qed.

Lemma get_object props k :
  get (VObj props) k =
    Ok (match lookup k props with Some x => x | None => VUndefined end).
Proof. unfold get. destruct (lookup k props); reflexivity. Qed.

Lemma get_opt_total v k : exists x, get_opt v k = Ok x.
Proof.
  destruct v; cbn; try (eexists; reflexivity).
  destruct (lookup k props); eexists; reflexivity.
Qed.

Lemma get_total v k : nullish v = false -> exists x, get v k = Ok x.
Proof.
  destruct v; cbn; try discriminate; intros _; try (eexists; reflexivity).
  destruct (lookup k props); eexists; reflexivity.
Qed.

(** The optional chain [error.response?.data?.message] on an error
    object. *)
Lemma structured_message_object err :
  structured_message (VObj err) =
    Ok (match upstream_message err with Some m => m | None => VUndefined end).
Proof.
  unfold structured_message, upstream_message. rewrite get_object.
  cbn [res_bind].
  destruct (lookup "response" err) as [[| | | | | |response]|]; try reflexivity.
  unfold get_opt at 1. cbn [nullish]. rewrite get_object. cbn [res_bind].
  destruct (lookup "data" response) as [[| | | | | |d]|]; try reflexivity.
  unfold get_opt. cbn [nullish]. rewrite get_object.
  destruct (lookup "message" d); reflexivity.
Qed.

Lemma failure_object err :
  failure (VObj err) =
    Ok (formatResponse VNull
          (or_else
             (match upstream_message err with Some m => m | None => VUndefined end)
             (match generic_message err with Some g => g | None => VUndefined end))).
Proof.
  unfold failure, error_text. rewrite structured_message_object.
  cbn [res_bind]. unfold or_else, generic_message.
  destruct (truthy _); [reflexivity|]. rewrite get_object. reflexivity.
Qed.

(** C5 (amended): when the client call of a tool fails, the handler does
    not throw: it returns an envelope, with the state and the effects of
    the call alone.  If the error carries a truthy
    [error.response.data.message] (a non-empty string, say) the text of the
    envelope is ["Error: "] followed by that message; if it carries none,
    or a falsy one such as the empty string, and [error.message] is truthy,
    the text is ["Error: "] followed by [error.message]. *)
Theorem C5_failure_envelope t env self e :
  result (perform (delegate t) env self) = Throw e ->
  exists err,
    e = VObj err
    /\ (exists envelope, result (call_tool t env self) = Ok envelope)
    /\ final (call_tool t env self) = final (perform (delegate t) env self)
    /\ events (call_tool t env self) = events (perform (delegate t) env self)
    /\ (forall m,
          upstream_message err = Some m -> truthy m = true ->
          result (call_tool t env self) = Ok (error_envelope m))
    /\ (forall g,
          no_upstream_message err ->
          generic_message err = Some g -> truthy g = true ->
          result (call_tool t env self) = Ok (error_envelope g)).
Proof.
  intros H. destruct (perform_throws_object _ _ _ _ H) as (err & ->).
  exists err. rewrite call_tool_cases, H. cbn [result final events].
  rewrite failure_object.
  split; [reflexivity|]. split; [eexists; reflexivity|].
  split; [reflexivity|]. split; [reflexivity|]. split.
  - intros m -> Hm. unfold or_else, formatResponse. rewrite Hm, Hm. reflexivity.
  - intros g Hno -> Hg. unfold no_upstream_message in Hno.
    unfold or_else, formatResponse.
    destruct (upstream_message err) as [m|].
    + rewrite Hno, Hg. reflexivity.
    + cbn [truthy]. rewrite Hg. reflexivity.
Qed.

Lemma C5_failure_envelope_witness :
  result (perform (delegate (T_vsm_search "4111"))
            (Samples.replying Samples.with_credentials
               (Reject Samples.rejected_pan)) Samples.fresh)
    = Throw (VObj Samples.rejected_pan)
  /\ result (call_tool (T_vsm_search "4111")
               (Samples.replying Samples.with_credentials
                  (Reject Samples.rejected_pan)) Samples.fresh)
     = Ok (text_envelope (VStr "Error: Invalid PAN")).
Proof.
  assert (H : result (perform (delegate (T_vsm_search "4111"))
                        (Samples.replying Samples.with_credentials
                           (Reject Samples.rejected_pan)) Samples.fresh)
              = Throw (VObj Samples.rejected_pan)) by reflexivity.
  split; [exact H|].
  destruct (C5_failure_envelope _ _ _ _ H) as (err & E & _ & _ & _ & Hup & _).
  injection E as <-.
  exact (Hup (VStr "Invalid PAN") eq_refl eq_refl).
Defined.

(** The upstream message is present and empty, and the envelope carries
    the generic message instead of it. *)
Lemma C5_counterexample :
  upstream_message Samples.empty_upstream_message = Some (VStr "")
  /\ result (call_tool T_hello_world
               (Samples.replying Samples.with_credentials
                  (Reject Samples.empty_upstream_message)) Samples.fresh)
     = Ok (text_envelope (VStr "Error: Request failed with status code 500"))
  /\ result (call_tool T_hello_world
               (Samples.replying Samples.with_credentials
                  (Reject Samples.empty_upstream_message)) Samples.fresh)
     <> Ok (error_envelope (VStr "")).
Proof.
  split; [reflexivity|]. split; [reflexivity|]. discriminate.
Qed.

(** A failure whose [message] is empty and that has no upstream message is
    reported with the text of a successful [null] payload. *)
Example silent_failure_reported_as_null :
  result (call_tool T_hello_world
            (Samples.replying Samples.with_credentials
               (Reject Samples.silent_failure)) Samples.fresh)
  = Ok (text_envelope (VStr "null"))
  /\ formatResponse VNull VUndefined = text_envelope (VStr "null").
Proof. split; reflexivity. Qed.

(** *** The ATM listing *)

Lemma atm_text_zero data :
  nullish data = false -> zero_atms data -> atm_text data = Ok no_atms_text.
Proof.
  unfold zero_atms, atm_list_of, atm_text. intros Hn Hz.
  destruct data as [| | | | | |props]; try discriminate; try reflexivity.
  rewrite get_object. cbn [res_bind].
  destruct (lookup "responseData" props) as [[| | | | | |rd]|]; try reflexivity.
  unfold get_opt. cbn [nullish]. rewrite get_object. cbn [res_bind].
  destruct (lookup "atmList" rd) as [atmList|]; [|reflexivity].
  destruct Hz as [-> | Hz]; [reflexivity|].
  destruct atmList; try discriminate; reflexivity.
Qed.

(** C8: when the client call returns a payload (not [null] or
    [undefined]) that lists zero ATMs or holds no ATM list, the handler
    returns the envelope whose text is the count 0 followed by
    ["No ATMs found"], not the envelope of an error. *)
Theorem C8_no_atms_found latitude longitude distance env self data :
  result (findNearbyAtms latitude longitude (Some (or_number distance 5)) None
            env self) = Ok data ->
  nullish data = false ->
  zero_atms data ->
  result (find_nearby_atms latitude longitude distance env self)
    = Ok (text_envelope (VStr no_atms_text)).
Proof.
  intros H Hn Hz.
  change (find_nearby_atms latitude longitude distance)
    with (call_tool (T_find_nearby_atms latitude longitude distance)).
  rewrite call_tool_cases. cbn [result delegate perform]. rewrite H.
  cbn [render]. rewrite (atm_text_zero data Hn Hz). reflexivity.
Qed.

Lemma C8_no_atms_found_witness :
  result (find_nearby_atms 40 (-74) None
            (Samples.replying Samples.with_credentials
               (Resolve {| data := Samples.atm_payload [] |})) Samples.fresh)
    = Ok (text_envelope (VStr no_atms_text)).
Proof.
  apply (C8_no_atms_found 40 (-74) None _ _ (Samples.atm_payload [])).
  - reflexivity.
  - reflexivity.
  - left. reflexivity.
Defined.

Lemma atm_line_total i atm :
  nullish atm = false -> exists line, atm_line i atm = Ok line /\ line <> "".
Proof.
  intros Hn. unfold atm_line.
  destruct (get_total atm "atmName" Hn) as (atmName & ->).
  destruct (get_total atm "address" Hn) as (address & ->).
  destruct (get_total atm "distance" Hn) as (distance & ->).
  cbn [res_bind].
  destruct (get_opt_total address "street") as (street & ->).
  destruct (get_opt_total address "city") as (city & ->).
  cbn [res_bind]. eexists. split; [reflexivity|].
  destruct (number_toString (Z.of_nat i + 1)); discriminate.
Qed.

Lemma map_indexed_atm_lines elems : forall i,
  forallb (fun atm => negb (nullish atm)) elems = true ->
  exists lines,
    map_indexed atm_line i elems = Ok lines
    /\ length lines = length elems
    /\ (forall line, In line lines -> line <> "").
Proof.
  induction elems as [|atm elems IH]; intros i H; cbn [map_indexed].
  - exists []. repeat split. intros ? [].
  - cbn [forallb] in H. apply andb_true_iff in H. destruct H as [Ha Hrest].
    apply negb_true_iff in Ha.
    destruct (atm_line_total i atm Ha) as (line & -> & Hne).
    destruct (IH (S i) Hrest) as (lines & -> & Hlen & Hall).
    cbn [res_bind]. exists (line :: lines). split; [reflexivity|].
    split; [cbn [length]; now rewrite Hlen|].
    intros l [<- | Hin]; [assumption | auto].
Qed.

Lemma join_nonempty sep line lines :
  line <> "" -> truthy (VStr (join sep (line :: lines))) = true.
Proof.
  intros Hne. unfold truthy, join. cbn [String.concat].
  destruct line as [|c line]; [contradiction|].
  destruct lines; reflexivity.
Qed.

Lemma atm_text_listing data elems lines :
  atm_list_of data = Some (VArr elems) ->
  map_indexed atm_line 0 (firstn 10 elems) = Ok lines ->
  (forall line, In line lines -> line <> "") ->
  atm_text data = Ok (listing_text (length elems) lines).
Proof.
  unfold atm_list_of, atm_text. intros Hl Hm Hne.
  destruct data as [| | | | | |props]; try discriminate.
  rewrite get_object. cbn [res_bind].
  destruct (lookup "responseData" props) as [[| | | | | |rd]|]; try discriminate.
  unfold get_opt. cbn [nullish]. rewrite get_object, Hl. cbn [res_bind].
  unfold or_else at 1. cbn [truthy slice_map]. rewrite Hm. cbn [res_bind].
  unfold listing_text. cbn [length_of to_string].
  destruct lines as [|line lines].
  - reflexivity.
  - unfold or_else. rewrite join_nonempty by (apply Hne; left; reflexivity).
    reflexivity.
Qed.

(** C9: for a payload whose ATM list has [n] entries, the first ten of
    them not [null], the text of the envelope reports the count [n] and
    lists [min 10 n] lines, made from the first ten entries alone; what
    comes after the tenth entry is not read. *)
Theorem C9_listing_capped latitude longitude distance env self data elems :
  result (findNearbyAtms latitude longitude (Some (or_number distance 5)) None
            env self) = Ok data ->
  atm_list_of data = Some (VArr elems) ->
  forallb (fun atm => negb (nullish atm)) (firstn 10 elems) = true ->
  exists lines,
    map_indexed atm_line 0 (firstn 10 elems) = Ok lines
    /\ length lines = Nat.min 10 (length elems)
    /\ result (find_nearby_atms latitude longitude distance env self)
       = Ok (text_envelope (VStr (listing_text (length elems) lines))).
Proof.
  intros H Hl Hn.
  destruct (map_indexed_atm_lines (firstn 10 elems) 0%nat Hn)
    as (lines & Hm & Hlen & Hne).
  exists lines. split; [exact Hm|]. split.
  - rewrite Hlen. apply length_firstn.
  - change (find_nearby_atms latitude longitude distance)
      with (call_tool (T_find_nearby_atms latitude longitude distance)).
    rewrite call_tool_cases. cbn [result delegate perform]. rewrite H.
    cbn [render]. rewrite (atm_text_listing data elems lines Hl Hm Hne).
    reflexivity.
Qed.

Lemma C9_listing_capped_witness :
  exists lines,
    length lines = 10%nat
    /\ result (find_nearby_atms 40 (-74) None
                 (Samples.replying Samples.with_credentials
                    (Resolve {| data := Samples.atm_payload Samples.twelve_atms |}))
                 Samples.fresh)
       = Ok (text_envelope (VStr (listing_text 12 lines))).
Proof.
  destruct (C9_listing_capped 40 (-74) None
              (Samples.replying Samples.with_credentials
                 (Resolve {| data := Samples.atm_payload Samples.twelve_atms |}))
              Samples.fresh (Samples.atm_payload Samples.twelve_atms)
              Samples.twelve_atms eq_refl eq_refl eq_refl)
    as (lines & _ & Hlen & Hres).
  exists lines. split; [exact Hlen | exact Hres].
Defined.

(** *** Request bodies *)

(** What a tool sends is what its client call sends. *)
Lemma call_tool_requests t env self :
  requests_of (events (call_tool t env self))
    = requests_of (events (perform (delegate t) env self)).
Proof. rewrite call_tool_cases. reflexivity. Qed.

(** The requests of an operation carry the body bound to it. *)
Lemma perform_request_body op env self r :
  In r (requests_of (events (perform op env self))) ->
  body r = payload_of op env.
Proof.
  pose proof (perform_cases op env self) as H.
  destruct (getClient_facts env self) as (Hq & _).
  destruct (getClient env self) as [[c|e] s evs]; cbn [events] in *;
    rewrite H; cbn [events]; rewrite ?requests_of_app, Hq.
  - intros [<- | []]. reflexivity.
  - intros [].
Qed.

(** The claim as worded fails for the subscription stop: created without a
    reason, it sends a [reason] field holding a default text. *)
Lemma C4_counterexample :
  exists r props,
    requests_of
      (events (vsmAddMerchant "4111111111111111" "MERCHANT-1" None
                 (Samples.replying Samples.with_credentials Samples.ok_reply)
                 Samples.fresh)) = [r]
    /\ body r = Some (VObj props)
    /\ lookup "reason" props = Some (VStr "Subscription cancellation").
Proof. eexists. eexists. repeat split. Qed.

(** C4 (amended): a stop-instruction create sends [pan] and [level], plus
    [merchantId] exactly when the level is "merchant" and a non-empty
    merchant identifier is supplied, plus [mcc] exactly when the level is
    "mcc" and a non-empty code is supplied; an argument that is not supplied
    yields no field at all.  A subscription stop create always sends a
    [reason]: the caller's when it is supplied and not empty, the text
    "Subscription cancellation" otherwise. *)
Theorem C4_optional_arguments env self r :
  (forall pan level merchantId mcc,
     In r (requests_of (events (vspsAddStop pan level merchantId mcc env self))) ->
     exists props,
       body r = Some (VObj props)
       /\ lookup "pan" props = Some (VStr pan)
       /\ lookup "level" props = Some (VStr (level_name level))
       /\ (forall v, lookup "merchantId" props = Some v <->
                     level = level_merchant /\
                     exists s, merchantId = Some s /\ s <> "" /\ v = VStr s)
       /\ (forall v, lookup "mcc" props = Some v <->
                     level = level_mcc /\
                     exists s, mcc = Some s /\ s <> "" /\ v = VStr s)
       /\ (merchantId = None -> has_key "merchantId" props = false)
       /\ (mcc = None -> has_key "mcc" props = false))
  /\ (forall pan merchantId reason,
        In r (requests_of (events (vsmAddMerchant pan merchantId reason env self))) ->
        body r = Some (VObj [("pan", VStr pan);
                             ("merchantId", VStr merchantId);
                             ("reason",
                               VStr match reason with
                                    | Some s => if String.eqb s "" then
                                                  "Subscription cancellation"
                                                else s
                                    | None => "Subscription cancellation"
                                    end)])).
Proof.
  split.
  - intros pan level merchantId mcc Hin.
    apply (perform_request_body (OpVspsAddStop pan level merchantId mcc)) in Hin.
    cbn [payload_of] in Hin. eexists. split; [exact Hin|].
    clear Hin. unfold vspsAddStop_payload, has_key.
    destruct level, merchantId as [m|], mcc as [c|];
      cbn [is_merchant is_mcc andb optional truthy];
      try destruct (String.eqb_spec m ""); try destruct (String.eqb_spec c "");
      cbn [negb]; unfold set_prop; simpl;
      (split; [reflexivity|]); (split; [reflexivity|]);
      (split; [|split; [|split; intros; congruence]]);
      intros v; (split; [intros Hv | intros (Hl & s & Hs & Hne & Hv)]);
      try discriminate; try congruence;
      try (injection Hv as <-; split; [reflexivity|];
           eexists; repeat split; assumption).
  - intros pan merchantId reason Hin.
    apply (perform_request_body (OpVsmAddMerchant pan merchantId reason)) in Hin.
    cbn [payload_of] in Hin. rewrite Hin. unfold vsmAddMerchant_payload.
    destruct reason as [s|]; [|reflexivity].
    unfold or_else, optional, truthy. destruct (String.eqb s ""); reflexivity.
Qed.

Lemma C4_optional_arguments_witness :
  exists props,
    payload_of (OpVspsAddStop "4111111111111111" level_merchant None None)
      (Samples.replying Samples.with_credentials Samples.ok_reply)
      = Some (VObj props)
    /\ has_key "merchantId" props = false.
Proof.
  pose (env := Samples.replying Samples.with_credentials Samples.ok_reply).
  pose (r := request_of
               (OpVspsAddStop "4111111111111111" level_merchant None None)
               env Samples.the_handle).
  destruct (proj1 (C4_optional_arguments env Samples.fresh r)
              "4111111111111111" level_merchant None None)
    as (props & Hb & _ & _ & _ & _ & Hm & _).
  - left. reflexivity.
  - exists props. split; [exact Hb | exact (Hm eq_refl)].
Defined.

(** C10: at the tool boundary a falsy optional argument is treated as an
    absent one.  An empty [merchantId] or [notes] given to the update tool
    yields the run of the tool without that argument, and no such field in
    the body; [days = 0] yields the run without [days], with
    [searchPeriodDays = 90] in the body; [distance = 0] yields the run
    without [distance], with a range distance of 5 in the body.  The same
    holds of the remaining optional arguments: an empty [reason], and an
    empty [merchantId] or [mcc] of the stop-instruction create. *)
Theorem C10_falsy_as_absent env self :
  (forall stopId notes,
     vsps_update_stop stopId (Some "") notes env self
       = vsps_update_stop stopId None notes env self)
  /\ (forall stopId merchantId,
        vsps_update_stop stopId merchantId (Some "") env self
          = vsps_update_stop stopId merchantId None env self)
  /\ (forall stopId r,
        In r (requests_of (events (vsps_update_stop stopId (Some "") (Some "")
                                     env self))) ->
        body r = Some (VObj [("stopId", VStr stopId)]))
  /\ (forall pan,
        vsps_search_eligible pan (Some 0) env self
          = vsps_search_eligible pan None env self)
  /\ (forall pan r,
        In r (requests_of (events (vsps_search_eligible pan (Some 0) env self))) ->
        body r = Some (VObj [("pan", VStr pan); ("searchPeriodDays", VNum 90)]))
  /\ (forall latitude longitude,
        find_nearby_atms latitude longitude (Some 0) env self
          = find_nearby_atms latitude longitude None env self)
  /\ (forall latitude longitude r,
        In r (requests_of (events (find_nearby_atms latitude longitude (Some 0)
                                     env self))) ->
        body r = Some (findNearbyAtms_payload latitude longitude 5 km (now env)))
  /\ (forall pan merchantId,
        vsm_add_merchant pan merchantId (Some "") env self
          = vsm_add_merchant pan merchantId None env self)
  /\ (forall pan level mcc,
        vsps_add_stop pan level (Some "") mcc env self
          = vsps_add_stop pan level None mcc env self)
  /\ (forall pan level merchantId,
        vsps_add_stop pan level merchantId (Some "") env self
          = vsps_add_stop pan level merchantId None env self).
Proof.
  split; [reflexivity|]. split; [intros ? [m|]; reflexivity|].
  split.
  { intros stopId r.
    change (vsps_update_stop stopId (Some "") (Some ""))
      with (call_tool (T_vsps_update_stop stopId (Some "") (Some ""))).
    rewrite call_tool_requests. intros Hin.
    apply perform_request_body in Hin. exact Hin. }
  split; [reflexivity|]. split.
  { intros pan r.
    change (vsps_search_eligible pan (Some 0))
      with (call_tool (T_vsps_search_eligible pan (Some 0))).
    rewrite call_tool_requests. intros Hin.
    apply perform_request_body in Hin. exact Hin. }
  split; [reflexivity|]. split.
  { intros latitude longitude r.
    change (find_nearby_atms latitude longitude (Some 0))
      with (call_tool (T_find_nearby_atms latitude longitude (Some 0))).
    rewrite call_tool_requests. intros Hin.
    apply perform_request_body in Hin. exact Hin. }
  split; [reflexivity|]. split.
  - intros pan [] mcc; reflexivity.
  - intros pan [] [m|]; reflexivity.
Qed.

Lemma C10_falsy_as_absent_witness :
  body (request_of (delegate (T_vsps_search_eligible "4111" (Some 0)))
          (Samples.replying Samples.no_files Samples.ok_reply)
          Samples.the_handle)
    = Some (VObj [("pan", VStr "4111"); ("searchPeriodDays", VNum 90)]).
Proof.
  apply (proj1 (proj2 (proj2 (proj2 (proj2
           (C10_falsy_as_absent
              (Samples.replying Samples.no_files Samples.ok_reply)
              Samples.warmed_up)))))
           "4111").
  left. reflexivity.
Defined.

(** ** Further properties of the client and of the adapter *)

Import Coverage.

(** *** The adapter in front of an unready client *)

(** X1: Without certificate or key every tool answers with the envelope of the
    "not initialized" error, and the run is that of the aborted
    initialisation alone: two or four file-system and console events, no
    request, the client object unchanged. *)
Theorem tool_reports_missing_credentials t env self :
  unready self ->
  credentials_missing env (config self) ->
  call_tool t env self =
    {| result := Ok (text_envelope
                       (VStr ("Error: " ++ not_initialized_message)%string));
       final := self;
       events := abort_events env (config self) |}
  /\ requests_of (events (call_tool t env self)) = [].
Proof.
  intros Hu Hm. pose proof (perform_cases (delegate t) env self) as H.
  rewrite (getClient_credentials_missing env self Hu Hm) in H.
  rewrite call_tool_cases, H. cbn [result final events].
  split; [reflexivity|]. apply abort_events_quiet.
Qed.

Lemma tool_reports_missing_credentials_witness :
  result (call_tool (T_vsps_extend_stop "S-1" "2030-01-01")
            (Samples.replying Samples.no_files Samples.ok_reply) Samples.fresh)
  = Ok (text_envelope
          (VStr "Error: Visa API client not initialized. Please configure your certificates in the certs/ directory.")).
Proof.
  assert (Hu : unready Samples.fresh) by (split; reflexivity).
  assert (Hm : credentials_missing
                 (Samples.replying Samples.no_files Samples.ok_reply)
                 (config Samples.fresh)) by (left; reflexivity).
  rewrite (proj1 (tool_reports_missing_credentials
                    (T_vsps_extend_stop "S-1" "2030-01-01") _ _ Hu Hm)).
  reflexivity.
Defined.

(** *** Handlers never throw *)

Lemma get_throws_object v k e :
  get v k = Throw e -> exists err, e = VObj err.
Proof.
  destruct v; cbn; try discriminate.
  - intros [= <-]. eexists; reflexivity.
  - intros [= <-]. eexists; reflexivity.
  - destruct (lookup k props); discriminate.
Qed.

Lemma get_opt_throws_object v k e :
  get_opt v k = Throw e -> exists err, e = VObj err.
Proof.
  destruct (get_opt_total v k) as (x & ->). discriminate.
Qed.

Lemma atm_line_throws_object i atm e :
  atm_line i atm = Throw e -> exists err, e = VObj err.
Proof.
  unfold atm_line.
  destruct (get atm "atmName") eqn:E1; [|intros [= <-]; eapply get_throws_object; eassumption].
  destruct (get atm "address") eqn:E2; [|intros [= <-]; eapply get_throws_object; eassumption].
  cbn [res_bind].
  destruct (get_opt_total a0 "street") as (street & ->).
  destruct (get_opt_total a0 "city") as (city & ->).
  cbn [res_bind].
  destruct (get atm "distance") eqn:E3; [discriminate|].
  intros [= <-]. eapply get_throws_object; eassumption.
Qed.

Lemma map_indexed_throws_object elems : forall i e,
  map_indexed atm_line i elems = Throw e -> exists err, e = VObj err.
Proof.
  induction elems as [|atm elems IH]; intros i e; cbn [map_indexed].
  - discriminate.
  - destruct (atm_line i atm) eqn:El; cbn [res_bind].
    + destruct (map_indexed atm_line (S i) elems) eqn:Em; cbn [res_bind].
      * discriminate.
      * intros [= <-]. eapply IH; eassumption.
    + intros [= <-]. eapply atm_line_throws_object; eassumption.
Qed.

Lemma render_throws_object t data e :
  render t data = Throw e -> exists err, e = VObj err.
Proof.
  destruct t; cbn [render]; try discriminate.
  - unfold exchange_rate_text.
    destruct (get data "conversionRate") eqn:E1; cbn [res_bind];
      [|intros [= <-]; eapply get_throws_object; eassumption].
    destruct (get data "destinationAmount") eqn:E2; cbn [res_bind];
      [discriminate|intros [= <-]; eapply get_throws_object; eassumption].
  - unfold atm_text.
    destruct (get data "responseData") eqn:E1; cbn [res_bind];
      [|intros [= <-]; eapply get_throws_object; eassumption].
    destruct (get_opt_total a "atmList") as (atmList & ->). cbn [res_bind].
    destruct (slice_map (or_else atmList (VArr []))) eqn:Es; cbn [res_bind];
      [discriminate|]. intros [= <-].
    unfold slice_map in Es.
    destruct (or_else atmList (VArr []));
      try (injection Es as <-; eexists; reflexivity).
    eapply map_indexed_throws_object; eassumption.
Qed.

Lemma render_is_text t data envelope :
  render t data = Ok envelope -> exists txt, envelope = text_envelope txt.
Proof.
  destruct t; cbn [render]; unfold formatResponse; cbn [truthy];
    try (intros [= <-]; eexists; reflexivity).
  - destruct (exchange_rate_text _ _ _ _); cbn [res_bind];
      [intros [= <-]; eexists; reflexivity | discriminate].
  - destruct (atm_text _); cbn [res_bind];
      [intros [= <-]; eexists; reflexivity | discriminate].
Qed.

Lemma failure_is_text err :
  exists txt, failure (VObj err) = Ok (text_envelope txt).
Proof.
  rewrite failure_object. unfold formatResponse.
  destruct (truthy _); eexists; reflexivity.
Qed.

(** X2: Whatever the tool, the arguments, the environment and the state of the
    client, a handler returns an envelope with exactly one content item of
    type "text": no error of the client call or of the rendering of its
    payload escapes the [catch] clause, and the clause itself does not
    throw. *)
Theorem handlers_never_throw t env self :
  exists txt,
    result (call_tool t env self)
      = Ok {| content := [{| type := "text"; text := txt |}] |}.
Proof.
  rewrite call_tool_cases. cbn [result].
  destruct (result (perform (delegate t) env self)) as [data|e] eqn:Hp.
  - destruct (render t data) as [envelope|e] eqn:Hr.
    + destruct (render_is_text _ _ _ Hr) as (txt & ->). exists txt. reflexivity.
    + destruct (render_throws_object _ _ _ Hr) as (err & ->).
      destruct (failure_is_text err) as (txt & ->). exists txt. reflexivity.
  - destruct (perform_throws_object _ _ _ _ Hp) as (err & ->).
    destruct (failure_is_text err) as (txt & ->). exists txt. reflexivity.
Qed.

(** *** One tool invocation, one client call *)

(** X3: A handler changes the client object and the outside world exactly as
    its client call does: it sends the single request of the delegated
    operation when the handle is obtained, and nothing otherwise. *)
Theorem tool_single_request t env self :
  final (call_tool t env self) = final (perform (delegate t) env self)
  /\ events (call_tool t env self) = events (perform (delegate t) env self)
  /\ requests_of (events (call_tool t env self))
     = match result (getClient env self) with
       | Ok c => [request_of (delegate t) env c]
       | Throw _ => []
       end.
Proof.
  rewrite call_tool_cases. cbn [final events].
  split; [reflexivity|]. split; [reflexivity|].
  pose proof (perform_cases (delegate t) env self) as H.
  destruct (getClient_facts env self) as (Hq & _).
  destruct (getClient env self) as [[c|e] s evs]; cbn [result events] in *;
    rewrite H; cbn [events]; rewrite ?requests_of_app, Hq; reflexivity.
Qed.

(** *** The client is a pass-through *)

(** X4: With a handle in place a method returns the payload of the response as
    it is when the exchange resolves, and throws the error of the exchange
    as it is when it rejects; the client object is not touched. *)
Theorem client_passes_through op env self h :
  ready self h ->
  final (perform op env self) = self
  /\ match net env (request_of op env h) with
     | Resolve response => result (perform op env self) = Ok (data response)
     | Reject err => result (perform op env self) = Throw (VObj err)
     end.
Proof.
  intros Hr. rewrite (perform_ready op env self h Hr). cbn [final result].
  split; [reflexivity|]. unfold exchange.
  destruct (net env (request_of op env h)); reflexivity.
Qed.

Lemma client_passes_through_witness :
  result (perform (OpVsmCancel "S-9")
            (Samples.replying Samples.no_files (Reject Samples.rejected_pan))
            Samples.warmed_up)
  = Throw (VObj Samples.rejected_pan).
Proof.
  assert (Hr : ready Samples.warmed_up Samples.the_handle)
    by (split; reflexivity).
  exact (proj2 (client_passes_through (OpVsmCancel "S-9")
                  (Samples.replying Samples.no_files
                     (Reject Samples.rejected_pan)) _ _ Hr)).
Defined.

(** *** Success texts and failure texts *)

Lemma prefix_error_head c rest :
  c <> "E"%char -> String.prefix "Error: " (String c rest) = false.
Proof.
  intros Hc. cbn [String.prefix].
  destruct (ascii_dec "E" c) as [E|_]; [congruence | reflexivity].
Qed.

Lemma number_toString_head n :
  exists c rest, number_toString n = String c rest /\ c <> "E"%char.
Proof.
  unfold number_toString.
  destruct (Z.to_int n) as [d|d]; cbn [NilZero.string_of_int].
  - destruct d; cbn; eexists; eexists; (split; [reflexivity|discriminate]).
  - eexists; eexists; (split; [reflexivity|discriminate]).
Qed.

Lemma serialize_head v : forall indent s,
  serialize indent v = Some s ->
  exists c rest, s = String c rest /\ c <> "E"%char.
Proof.
  destruct v as [| |b|n|str|elems|props]; intros indent s; cbn [serialize].
  - discriminate.
  - intros [= <-]. eexists; eexists; (split; [reflexivity|discriminate]).
  - destruct b; intros [= <-];
      eexists; eexists; (split; [reflexivity|discriminate]).
  - intros [= <-]. apply number_toString_head.
  - intros [= <-]. eexists; eexists; (split; [reflexivity|discriminate]).
  - destruct (map _ elems); intros [= <-];
      eexists; eexists; (split; [reflexivity|discriminate]).
  - destruct (flat_map _ props); intros [= <-];
      eexists; eexists; (split; [reflexivity|discriminate]).
Qed.

Lemma stringify_not_error data : reads_as_error (stringify data) = false.
Proof.
  unfold stringify, reads_as_error.
  destruct (serialize "" data) as [s|] eqn:Es; [|reflexivity].
  destruct (serialize_head _ _ _ Es) as (c & rest & -> & Hc).
  apply prefix_error_head. exact Hc.
Qed.

Lemma render_not_error t data envelope :
  render t data = Ok envelope -> reads_as_error (text_of envelope) = false.
Proof.
  destruct t; cbn [render]; unfold formatResponse; cbn [truthy];
    try (intros [= <-]; apply stringify_not_error).
  - unfold exchange_rate_text.
    destruct (get data "conversionRate"); cbn [res_bind]; [|discriminate].
    destruct (get data "destinationAmount"); cbn [res_bind]; [|discriminate].
    intros [= <-]. reflexivity.
  - unfold atm_text.
    destruct (get data "responseData"); cbn [res_bind]; [|discriminate].
    destruct (get_opt _ "atmList"); cbn [res_bind]; [|discriminate].
    destruct (slice_map _); cbn [res_bind]; [|discriminate].
    intros [= <-]. reflexivity.
Qed.

(** X5: A text that starts with ["Error: "] is never the rendering of a
    payload: when a handler returns one, its client call threw, or the
    rendering of the payload did. *)
Theorem error_text_means_failure t env self envelope :
  result (call_tool t env self) = Ok envelope ->
  reads_as_error (text_of envelope) = true ->
  (exists e, result (perform (delegate t) env self) = Throw e)
  \/ (exists data e,
        result (perform (delegate t) env self) = Ok data
        /\ render t data = Throw e).
Proof.
  rewrite call_tool_cases. cbn [result].
  destruct (result (perform (delegate t) env self)) as [data|e] eqn:Hp.
  - destruct (render t data) as [envelope'|e] eqn:Hr.
    + intros [= <-] Herr.
      rewrite (render_not_error _ _ _ Hr) in Herr. discriminate.
    + intros _ _. right. exists data, e. split; [reflexivity | exact Hr].
  - intros _ _. left. exists e. reflexivity.
Qed.

Lemma error_text_means_failure_witness :
  (exists e,
     result (perform (delegate (T_vsm_cancel "S-1"))
               (Samples.replying Samples.no_files Samples.ok_reply)
               Samples.fresh) = Throw e)
  \/ (exists data e,
        result (perform (delegate (T_vsm_cancel "S-1"))
                  (Samples.replying Samples.no_files Samples.ok_reply)
                  Samples.fresh) = Ok data
        /\ render (T_vsm_cancel "S-1") data = Throw e).
Proof.
  apply (error_text_means_failure (T_vsm_cancel "S-1")
           (Samples.replying Samples.no_files Samples.ok_reply) Samples.fresh
           (text_envelope
              (VStr ("Error: " ++ not_initialized_message)%string)));
    reflexivity.
Defined.

(** *** The exchange-rate text *)

Lemma serialize_object props indent :
  exists s, serialize indent (VObj props) = Some s.
Proof.
  cbn [serialize]. destruct (flat_map _ props); eexists; reflexivity.
Qed.

(** X6: For a payload that is an object the text shows the conversion rate and
    the converted amount of the payload, each replaced by ["N/A"] when the
    field is missing or falsy (a rate of 0 included), then the amount and
    the currencies of the call and the payload pretty-printed. *)
Theorem exchange_rate_text_of_payload
    sourceCurrency destinationCurrency sourceAmount env self props :
  result (getExchangeRate sourceCurrency destinationCurrency sourceAmount
            env self) = Ok (VObj props) ->
  exists pretty,
    stringify (VObj props) = VStr pretty
    /\ result (get_exchange_rate sourceCurrency destinationCurrency
                 sourceAmount env self)
       = Ok (text_envelope
               (VStr ("Exchange Rate: " ++ shown "conversionRate" props
                      ++ newline
                      ++ number_toString sourceAmount ++ " " ++ sourceCurrency
                      ++ " = " ++ shown "destinationAmount" props ++ " "
                      ++ destinationCurrency ++ newline ++ newline
                      ++ "Full response:" ++ newline ++ pretty)%string)).
Proof.
  intros H.
  destruct (serialize_object props "") as (pretty & Hs).
  exists pretty. unfold stringify. rewrite Hs. split; [reflexivity|].
  change (get_exchange_rate sourceCurrency destinationCurrency sourceAmount)
    with (call_tool (T_get_exchange_rate sourceCurrency destinationCurrency
                       sourceAmount)).
  rewrite call_tool_cases. cbn [result delegate perform]. rewrite H.
  cbn [render]. unfold exchange_rate_text. rewrite !get_object.
  cbn [res_bind]. unfold stringify. rewrite Hs. unfold shown, or_else.
  destruct (lookup "conversionRate" props) as [rate|];
    destruct (lookup "destinationAmount" props) as [amount|];
    cbn [truthy]; try destruct (truthy rate); try destruct (truthy amount);
    reflexivity.
Qed.

Lemma exchange_rate_text_of_payload_witness :
  exists pretty,
    result (get_exchange_rate "USD" "EUR" 100
              (Samples.replying Samples.with_credentials
                 (Resolve {| data := VObj Cases.rate_payload |}))
              Samples.fresh)
    = Ok (text_envelope
            (VStr ("Exchange Rate: N/A" ++ newline ++ "100 USD = 92.10 EUR"
                   ++ newline ++ newline ++ "Full response:" ++ newline
                   ++ pretty)%string)).
Proof.
  destruct (exchange_rate_text_of_payload "USD" "EUR" 100
              (Samples.replying Samples.with_credentials
                 (Resolve {| data := VObj Cases.rate_payload |}))
              Samples.fresh Cases.rate_payload eq_refl)
    as (pretty & _ & H).
  exists pretty. exact H.
Defined.

(** *** Payloads the rendering cannot read *)

(** X7: A [null] or [undefined] payload makes the two rendering tools fail in
    their [try] block: the envelope carries the message of the property
    read that threw. *)
Theorem null_payload_is_reported env self data :
  nullish data = true ->
  (forall sourceCurrency destinationCurrency sourceAmount,
     result (getExchangeRate sourceCurrency destinationCurrency sourceAmount
               env self) = Ok data ->
     result (get_exchange_rate sourceCurrency destinationCurrency sourceAmount
               env self)
       = Ok (error_envelope (VStr ("Cannot read properties of "
                                   ++ to_string data
                                   ++ " (reading 'conversionRate')")%string)))
  /\ (forall latitude longitude distance,
        result (findNearbyAtms latitude longitude
                  (Some (or_number distance 5)) None env self) = Ok data ->
        result (find_nearby_atms latitude longitude distance env self)
          = Ok (error_envelope (VStr ("Cannot read properties of "
                                      ++ to_string data
                                      ++ " (reading 'responseData')")%string))).
Proof.
  intros Hn. split.
  - intros s d a H.
    change (get_exchange_rate s d a) with (call_tool (T_get_exchange_rate s d a)).
    rewrite call_tool_cases. cbn [result delegate perform]. rewrite H.
    destruct data; try discriminate; reflexivity.
  - intros la lo di H.
    change (find_nearby_atms la lo di) with (call_tool (T_find_nearby_atms la lo di)).
    rewrite call_tool_cases. cbn [result delegate perform]. rewrite H.
    destruct data; try discriminate; reflexivity.
Qed.

Lemma null_payload_is_reported_witness :
  result (find_nearby_atms 40 (-74) None
            (Samples.replying Samples.with_credentials
               (Resolve {| data := VNull |})) Samples.fresh)
  = Ok (text_envelope
          (VStr "Error: Cannot read properties of null (reading 'responseData')")).
Proof.
  apply (proj2 (null_payload_is_reported
                  (Samples.replying Samples.with_credentials
                     (Resolve {| data := VNull |})) Samples.fresh VNull eq_refl)
           40 (-74) None).
  reflexivity.
Defined.

(** *** ATM lists the rendering cannot walk *)

Lemma atm_text_of_list data atmList :
  atm_list_of data = Some atmList ->
  atm_text data =
    (let atms := or_else atmList (VArr []) in
     let? lines := slice_map atms in
     Ok ("Found " ++ to_string (length_of atms) ++ " ATMs nearby:" ++ newline
         ++ newline
         ++ to_string (or_else (VStr (join newline lines))
                         (VStr "No ATMs found")))%string).
Proof.
  unfold atm_list_of, atm_text. intros Hl.
  destruct data as [| | | | | |props]; try discriminate.
  rewrite get_object. cbn [res_bind].
  destruct (lookup "responseData" props) as [[| | | | | |rd]|]; try discriminate.
  unfold get_opt. cbn [nullish]. rewrite get_object, Hl. reflexivity.
Qed.

(** X8: An ATM list that is present and truthy but is not an array (an object,
    a string, a number, [true]) has no [slice] or no [map]: the [try] block
    fails and the envelope carries the message of that error. *)
Theorem atm_list_not_an_array latitude longitude distance env self data atmList :
  result (findNearbyAtms latitude longitude (Some (or_number distance 5)) None
            env self) = Ok data ->
  atm_list_of data = Some atmList ->
  truthy atmList = true ->
  (forall elems, atmList <> VArr elems) ->
  result (find_nearby_atms latitude longitude distance env self)
    = Ok (text_envelope
            (VStr match atmList with
                  | VStr _ => "Error: atms.slice(...).map is not a function"
                  | _ => "Error: atms.slice is not a function"
                  end)).
Proof.
  intros H Hl Ht Hna.
  change (find_nearby_atms latitude longitude distance)
    with (call_tool (T_find_nearby_atms latitude longitude distance)).
  rewrite call_tool_cases. cbn [result delegate perform]. rewrite H.
  cbn [render]. rewrite (atm_text_of_list data atmList Hl).
  unfold or_else. rewrite Ht. cbv zeta.
  destruct atmList; try discriminate; try reflexivity.
  exfalso. eapply Hna. reflexivity.
Qed.

Lemma atm_list_not_an_array_witness :
  result (find_nearby_atms 40 (-74) None
            (Samples.replying Samples.with_credentials
               (Resolve {| data :=
                  VObj [("responseData",
                          VObj [("atmList", VObj [("0", Samples.atm "A1")])])] |}))
            Samples.fresh)
  = Ok (text_envelope (VStr "Error: atms.slice is not a function")).
Proof.
  apply (atm_list_not_an_array 40 (-74) None _ _
           (VObj [("responseData",
                    VObj [("atmList", VObj [("0", Samples.atm "A1")])])])
           (VObj [("0", Samples.atm "A1")])).
  - reflexivity.
  - reflexivity.
  - reflexivity.
  - intros elems. discriminate.
Defined.

Lemma map_indexed_stops pre : forall i bad post,
  forallb (fun atm => negb (nullish atm)) pre = true ->
  nullish bad = true ->
  map_indexed atm_line i (pre ++ bad :: post)
    = Throw (cannot_read bad "atmName").
Proof.
  induction pre as [|atm pre IH]; intros i bad post Hpre Hbad.
  - cbn [app map_indexed]. unfold atm_line.
    destruct bad; try discriminate; reflexivity.
  - cbn [forallb] in Hpre. apply andb_true_iff in Hpre.
    destruct Hpre as [Ha Hpre]. apply negb_true_iff in Ha.
    cbn [app map_indexed].
    destruct (atm_line_total i atm Ha) as (line & -> & _). cbn [res_bind].
    rewrite (IH (S i) bad post Hpre Hbad). reflexivity.
Qed.

(** X9: A [null] (or [undefined]) entry among the first ten of the list makes
    the whole listing fail: the envelope carries the message of the read of
    [atmName] on that entry, and neither the count nor the entries before
    it are shown. *)
Theorem atm_null_entry_is_reported
    latitude longitude distance env self data elems pre bad post :
  result (findNearbyAtms latitude longitude (Some (or_number distance 5)) None
            env self) = Ok data ->
  atm_list_of data = Some (VArr elems) ->
  firstn 10 elems = pre ++ bad :: post ->
  forallb (fun atm => negb (nullish atm)) pre = true ->
  nullish bad = true ->
  result (find_nearby_atms latitude longitude distance env self)
    = Ok (error_envelope (VStr ("Cannot read properties of " ++ to_string bad
                                ++ " (reading 'atmName')")%string)).
Proof.
  intros H Hl Hf Hpre Hbad.
  change (find_nearby_atms latitude longitude distance)
    with (call_tool (T_find_nearby_atms latitude longitude distance)).
  rewrite call_tool_cases. cbn [result delegate perform]. rewrite H.
  cbn [render]. rewrite (atm_text_of_list data _ Hl).
  unfold or_else. cbn [truthy]. cbv zeta. cbn [slice_map].
  rewrite Hf, (map_indexed_stops pre 0%nat bad post Hpre Hbad).
  reflexivity.
Qed.

Lemma atm_null_entry_is_reported_witness :
  result (find_nearby_atms 40 (-74) None
            (Samples.replying Samples.with_credentials
               (Resolve {| data :=
                  Samples.atm_payload [Samples.atm "A1"; VNull; Samples.atm "A3"] |}))
            Samples.fresh)
  = Ok (text_envelope
          (VStr "Error: Cannot read properties of null (reading 'atmName')")).
Proof.
  apply (atm_null_entry_is_reported 40 (-74) None _ _
           (Samples.atm_payload [Samples.atm "A1"; VNull; Samples.atm "A3"])
           [Samples.atm "A1"; VNull; Samples.atm "A3"]
           [Samples.atm "A1"] VNull [Samples.atm "A3"]);
    reflexivity.
Defined.

(** *** The lines of the listing *)

Lemma map_indexed_nth elems : forall i lines k atm,
  map_indexed atm_line i elems = Ok lines ->
  nth_error elems k = Some atm ->
  exists line,
    nth_error lines k = Some line /\ atm_line (i + k) atm = Ok line.
Proof.
  induction elems as [|x elems IH]; intros i lines k atm; cbn [map_indexed].
  - intros _ Hk. destruct k; discriminate.
  - destruct (atm_line i x) as [l|] eqn:El; cbn [res_bind]; [|discriminate].
    destruct (map_indexed atm_line (S i) elems) as [ls|] eqn:Em;
      cbn [res_bind]; [|discriminate].
    intros [= <-] Hk. destruct k as [|k]; cbn [nth_error] in *.
    + injection Hk as <-. exists l. rewrite Nat.add_0_r. split; [reflexivity|exact El].
    + destruct (IH (S i) ls k atm Em Hk) as (line & Hn & Hl).
      exists line. split; [exact Hn|].
      replace (i + S k)%nat with (S i + k)%nat by lia. exact Hl.
Qed.

(** X10: The line of the entry at position [k] (from 0) is numbered [k + 1];
    the name, the street, the city and the distance are those of the entry,
    and an entry without them is shown as
    ["ATM - Unknown,  (? km)"]. *)
Theorem atm_lines_are_numbered elems lines k atm :
  map_indexed atm_line 0 elems = Ok lines ->
  nth_error elems k = Some atm ->
  exists rest,
    nth_error lines k
      = Some (number_toString (Z.of_nat k + 1) ++ ". " ++ rest)%string
    /\ (forall props,
          atm = VObj props ->
          lookup "atmName" props = None ->
          lookup "address" props = None ->
          lookup "distance" props = None ->
          rest = "ATM - Unknown,  (? km)").
Proof.
  intros Hm Hk.
  destruct (map_indexed_nth elems 0%nat lines k atm Hm Hk) as (line & Hn & Hl).
  cbn [Nat.add] in Hl. unfold atm_line in Hl.
  destruct (get atm "atmName") as [atmName|] eqn:E1; cbn [res_bind] in Hl;
    [|discriminate].
  destruct (get atm "address") as [address|] eqn:E2; cbn [res_bind] in Hl;
    [|discriminate].
  destruct (get_opt address "street") as [street|] eqn:E3; cbn [res_bind] in Hl;
    [|discriminate].
  destruct (get_opt address "city") as [city|] eqn:E4; cbn [res_bind] in Hl;
    [|discriminate].
  destruct (get atm "distance") as [dist|] eqn:E5; cbn [res_bind] in Hl;
    [|discriminate].
  injection Hl as <-. eexists. split; [exact Hn|].
  intros props -> Ha Hb Hc. rewrite get_object in E1, E2, E5.
  rewrite Ha in E1. rewrite Hb in E2. rewrite Hc in E5.
  injection E1 as <-. injection E2 as <-. injection E5 as <-.
  cbn in E3, E4. injection E3 as <-. injection E4 as <-. reflexivity.
Qed.

Lemma atm_lines_are_numbered_witness :
  exists rest,
    nth_error ["1. A1 - 1 Main St, Reno (2 km)"; "2. ATM - Unknown,  (? km)"]
      1
    = Some (number_toString (Z.of_nat 1 + 1) ++ ". " ++ rest)%string.
Proof.
  destruct (atm_lines_are_numbered [Samples.atm "A1"; Cases.bare_atm]
              ["1. A1 - 1 Main St, Reno (2 km)"; "2. ATM - Unknown,  (? km)"]
              1 Cases.bare_atm eq_refl eq_refl) as (rest & H & _).
  exists rest. exact H.
Defined.

(** *** The body of a stop-instruction update *)

Lemma lookup_set_prop_same k v props : lookup k (set_prop k v props) = Some v.
Proof.
  induction props as [|[k' v'] props IH]; cbn [set_prop lookup].
  - rewrite String.eqb_refl. reflexivity.
  - destruct (String.eqb k k') eqn:E; cbn [lookup]; rewrite ?String.eqb_refl, ?E;
      [reflexivity | exact IH].
Qed.

Lemma lookup_set_prop_other k k' v props :
  k' <> k -> lookup k' (set_prop k v props) = lookup k' props.
Proof.
  intros Hne. induction props as [|[k0 v0] props IH]; cbn [set_prop lookup].
  - apply String.eqb_neq in Hne. rewrite Hne. reflexivity.
  - destruct (String.eqb k k0) eqn:E; cbn [lookup].
    + apply String.eqb_eq in E. subst k0.
      apply String.eqb_neq in Hne. rewrite Hne. reflexivity.
    + destruct (String.eqb k' k0); [reflexivity | exact IH].
Qed.

(** In [{ ...base, ...extra }] a key takes its last value in [extra], and
    its value in [base] when [extra] does not have it. *)
Lemma lookup_spread k base extra :
  lookup k (spread base extra)
    = match last_value k extra with
      | Some v => Some v
      | None => lookup k base
      end.
Proof.
  unfold spread, last_value.
  induction extra as [|[k0 v0] extra IH] using rev_ind; [reflexivity|].
  rewrite fold_left_app, rev_app_distr. cbn [fold_left rev app fst snd lookup].
  destruct (String.eqb k k0) eqn:E.
  - apply String.eqb_eq in E. subst k0. apply lookup_set_prop_same.
  - apply String.eqb_neq in E. rewrite (lookup_set_prop_other _ _ _ _ E).
    exact IH.
Qed.

(** X11: The client method spreads [updates] over [{ stopId }]: every field of
    [updates] is sent, and a [stopId] field in [updates] replaces the
    identifier given as first argument. *)
Theorem update_stop_spreads_updates stopId updates env self r :
  In r (requests_of (events (vspsUpdateStop stopId updates env self))) ->
  exists props,
    body r = Some (VObj props)
    /\ lookup "stopId" props
       = Some (match last_value "stopId" updates with
               | Some v => v
               | None => VStr stopId
               end)
    /\ (forall k, k <> "stopId" -> lookup k props = last_value k updates).
Proof.
  intros Hin.
  apply (perform_request_body (OpVspsUpdateStop stopId updates)) in Hin.
  cbn [payload_of] in Hin. eexists. split; [exact Hin|]. split.
  - rewrite lookup_spread. cbn [lookup]. rewrite String.eqb_refl.
    destruct (last_value "stopId" updates); reflexivity.
  - intros k Hk. rewrite lookup_spread. cbn [lookup].
    apply String.eqb_neq in Hk. rewrite Hk.
    destruct (last_value k updates); reflexivity.
Qed.

Lemma update_stop_spreads_updates_witness :
  exists props,
    payload_of (OpVspsUpdateStop "S-1" [("stopId", VStr "S-2")])
      (Samples.replying Samples.with_credentials Samples.ok_reply)
      = Some (VObj props)
    /\ lookup "stopId" props = Some (VStr "S-2").
Proof.
  pose (env := Samples.replying Samples.with_credentials Samples.ok_reply).
  destruct (update_stop_spreads_updates "S-1" [("stopId", VStr "S-2")] env
              Samples.fresh
              (request_of (OpVspsUpdateStop "S-1" [("stopId", VStr "S-2")])
                 env Samples.the_handle))
    as (props & Hb & Hs & _).
  - left. reflexivity.
  - exists props. split; [exact Hb | exact Hs].
Defined.

(** X12: Through the tool the body is [stopId], then [merchantId] when a
    non-empty one is given, then [notes] when a non-empty one is given: the
    identifier is always the one of the call. *)
Theorem update_tool_body stopId merchantId notes env self r :
  In r (requests_of (events (vsps_update_stop stopId merchantId notes env self))) ->
  body r
    = Some (VObj (("stopId", VStr stopId)
                  :: match merchantId with
                     | Some m => if String.eqb m "" then []
                                 else [("merchantId", VStr m)]
                     | None => []
                     end
                  ++ match notes with
                     | Some n => if String.eqb n "" then []
                                 else [("notes", VStr n)]
                     | None => []
                     end)).
Proof.
  change (vsps_update_stop stopId merchantId notes)
    with (call_tool (T_vsps_update_stop stopId merchantId notes)).
  rewrite call_tool_requests. intros Hin.
  apply perform_request_body in Hin. rewrite Hin.
  cbn [delegate payload_of]. unfold build_updates.
  destruct merchantId as [m|], notes as [n|]; cbn [optional truthy];
    try destruct (String.eqb m ""); try destruct (String.eqb n "");
    reflexivity.
Qed.

Lemma update_tool_body_witness :
  body (request_of (delegate (T_vsps_update_stop "S-1" (Some "") (Some "late")))
          (Samples.replying Samples.with_credentials Samples.ok_reply)
          Samples.the_handle)
  = Some (VObj [("stopId", VStr "S-1"); ("notes", VStr "late")]).
Proof.
  apply (update_tool_body "S-1" (Some "") (Some "late")
           (Samples.replying Samples.with_credentials Samples.ok_reply)
           Samples.fresh).
  left. reflexivity.
Defined.

(** *** Numbers are not range-checked *)

(** X13: Any number of days other than 0, and any distance other than 0, is
    sent as given: nothing keeps the search period within 30 to 180 days or
    the radius positive. *)
Theorem days_and_distance_are_sent_as_given env self n :
  n <> 0 ->
  (forall pan r,
     In r (requests_of (events (vsps_search_eligible pan (Some n) env self))) ->
     body r = Some (VObj [("pan", VStr pan); ("searchPeriodDays", VNum n)]))
  /\ (forall latitude longitude r,
        In r (requests_of (events (find_nearby_atms latitude longitude (Some n)
                                     env self))) ->
        body r = Some (findNearbyAtms_payload latitude longitude n km (now env))).
Proof.
  intros Hn. apply Z.eqb_neq in Hn. split.
  - intros pan r.
    change (vsps_search_eligible pan (Some n))
      with (call_tool (T_vsps_search_eligible pan (Some n))).
    rewrite call_tool_requests. intros Hin.
    apply perform_request_body in Hin. rewrite Hin.
    cbn [delegate payload_of default or_number truthy]. rewrite Hn. reflexivity.
  - intros latitude longitude r.
    change (find_nearby_atms latitude longitude (Some n))
      with (call_tool (T_find_nearby_atms latitude longitude (Some n))).
    rewrite call_tool_requests. intros Hin.
    apply perform_request_body in Hin. rewrite Hin.
    cbn [delegate payload_of default or_number truthy]. rewrite Hn. reflexivity.
Qed.

Lemma days_and_distance_are_sent_as_given_witness :
  body (request_of (delegate (T_vsps_search_eligible "4111" (Some (-7))))
          (Samples.replying Samples.with_credentials Samples.ok_reply)
          Samples.the_handle)
  = Some (VObj [("pan", VStr "4111"); ("searchPeriodDays", VNum (-7))]).
Proof.
  assert (Hn : -7 <> 0) by lia.
  apply (proj1 (days_and_distance_are_sent_as_given
                  (Samples.replying Samples.with_credentials Samples.ok_reply)
                  Samples.fresh (-7) Hn) "4111").
  left. reflexivity.
Defined.

(** *** Sessions of one client *)

Lemma session_of_ready calls self h :
  ready self h ->
  run_session calls self
    = (self, map (fun call => ERequest (request_of (snd call) (fst call) h)) calls).
Proof.
  intros Hr. induction calls as [|[env op] calls IH]; cbn [run_session map].
  - reflexivity.
  - rewrite (perform_ready op env self h Hr). cbn [final events].
    rewrite IH. reflexivity.
Qed.

Lemma requests_of_ready_session h calls :
  requests_of (map (fun call : Env * Operation =>
                      ERequest (request_of (snd call) (fst call) h)) calls)
    = map (fun call => request_of (snd call) (fst call) h) calls
  /\ agents_of (map (fun call : Env * Operation =>
                       ERequest (request_of (snd call) (fst call) h)) calls) = []
  /\ instances_of (map (fun call : Env * Operation =>
                          ERequest (request_of (snd call) (fst call) h)) calls) = [].
Proof.
  induction calls as [|call calls (IH1 & IH2 & IH3)]; [repeat split|].
  cbn [map requests_of agents_of instances_of flat_map app].
  fold (requests_of (map (fun call : Env * Operation =>
                            ERequest (request_of (snd call) (fst call) h)) calls)).
  fold (agents_of (map (fun call : Env * Operation =>
                          ERequest (request_of (snd call) (fst call) h)) calls)).
  fold (instances_of (map (fun call : Env * Operation =>
                             ERequest (request_of (snd call) (fst call) h)) calls)).
  rewrite IH1, IH2, IH3. repeat split.
Qed.

(** A session that starts without a handle either never gets one, and then
    is silent, or builds exactly one, from the files of one of its
    environments, and uses it from then on. *)
Lemma session_of_unready calls : forall self,
  unready self ->
  (fst (run_session calls self) = self
   /\ quiet (snd (run_session calls self)))
  \/ (exists env certData keyData,
        In env (map fst calls)
        /\ credentials_readable env (config self) certData keyData
        /\ instances_of (snd (run_session calls self))
           = [expected_instance env self certData keyData]
        /\ agents_of (snd (run_session calls self))
           = [expected_agent env (config self) certData keyData]
        /\ Forall (fun r => via r = expected_instance env self certData keyData)
             (requests_of (snd (run_session calls self)))
        /\ ready (fst (run_session calls self))
             (expected_instance env self certData keyData)).
Proof.
  induction calls as [|[env op] calls IH]; intros self Hu; cbn [run_session].
  - left. repeat split.
  - pose proof (perform_cases op env self) as H.
    rewrite getClient_unfold in H.
    destruct Hu as [Hc Hi].
    destruct (initialize_outcome env self Hi)
      as [[Hm Hrun] | [(c & k & evs & Hr & Hrun & Hq & Ha & Hn)
                       | (err & evs & Hrun & Hq & Ha & Hn)]];
      rewrite Hrun in H; cbn [client] in H; rewrite ?Hc in H; rewrite H;
      cbn [final events].
    + destruct (abort_events_quiet env (config self)) as (Q1 & Q2 & Q3).
      destruct (IH self (conj Hc Hi)) as [[Hs (R1 & R2 & R3)] | Hb];
        destruct (run_session calls self) as [self' evs']; cbn [fst snd] in *.
      * left. split; [exact Hs|].
        unfold quiet. rewrite requests_of_app, agents_of_app, instances_of_app.
        rewrite Q1, Q2, Q3, R1, R2, R3. repeat split.
      * right. destruct Hb as (env' & c & k & Hin & Hr & B1 & B2 & B3 & B4).
        exists env', c, k. split; [right; exact Hin|]. split; [exact Hr|].
        rewrite requests_of_app, agents_of_app, instances_of_app, Q1, Q2, Q3.
        cbn [app]. split; [exact B1|]. split; [exact B2|].
        split; [exact B3 | exact B4].
    + right. exists env, c, k. split; [left; reflexivity|]. split; [exact Hr|].
      set (h := expected_instance env self c k) in *.
      assert (Hready : ready {| client := Some h; config := config self;
                                baseUrl := baseUrl self; initialized := true |} h)
        by (split; reflexivity).
      rewrite (session_of_ready calls _ h Hready). cbn [fst snd].
      destruct (requests_of_ready_session h calls) as (S1 & S2 & S3).
      rewrite !requests_of_app, !agents_of_app, !instances_of_app.
      rewrite Hq, Ha, Hn, S1, S2, S3. cbn. repeat split; try assumption.
      constructor; [reflexivity|].
      apply Forall_forall. intros r Hin. apply in_map_iff in Hin.
      destruct Hin as (call & <- & _). reflexivity.
    + destruct (IH self (conj Hc Hi)) as [[Hs (R1 & R2 & R3)] | Hb];
        destruct (run_session calls self) as [self' evs']; cbn [fst snd] in *.
      * left. split; [exact Hs|].
        unfold quiet. rewrite requests_of_app, agents_of_app, instances_of_app.
        rewrite Hq, Ha, Hn, R1, R2, R3. repeat split.
      * right. destruct Hb as (env' & c & k & Hin & Hr & B1 & B2 & B3 & B4).
        exists env', c, k. split; [right; exact Hin|]. split; [exact Hr|].
        rewrite requests_of_app, agents_of_app, instances_of_app, Hq, Ha, Hn.
        cbn [app]. split; [exact B1|]. split; [exact B2|].
        split; [exact B3 | exact B4].
Qed.

(** X14: Through the whole life of a client, whatever the operations and the
    environments, at most one agent and one HTTP instance are built, and all
    the requests go through that one instance. *)
Theorem one_channel_per_client cfg calls :
  (length (agents_of (snd (run_session calls (new_VisaClient cfg)))) <= 1)%nat
  /\ (length (instances_of (snd (run_session calls (new_VisaClient cfg)))) <= 1)%nat
  /\ (forall r,
        In r (requests_of (snd (run_session calls (new_VisaClient cfg)))) ->
        instances_of (snd (run_session calls (new_VisaClient cfg))) = [via r]).
Proof.
  assert (Hu : unready (new_VisaClient cfg)) by (split; reflexivity).
  destruct (session_of_unready calls _ Hu)
    as [(_ & R1 & R2 & R3) | (env & c & k & _ & _ & B1 & B2 & B3 & _)].
  - rewrite R1, R2, R3. split; [cbn; lia|]. split; [cbn; lia|]. intros r [].
  - rewrite B1, B2. split; [cbn; lia|]. split; [cbn; lia|].
    intros r Hin. rewrite Forall_forall in B3. rewrite (B3 r Hin). reflexivity.
Qed.

(** X15: Every request of a client goes to the base URL of the environment of
    its configuration (sandbox or production), with the user id and the
    password of the configuration as basic credentials, JSON content
    headers, and an agent that verifies the server certificate. *)
Theorem requests_use_the_configuration cfg calls r :
  In r (requests_of (snd (run_session calls (new_VisaClient cfg)))) ->
  configured_for cfg (via r)
  /\ baseURL (via r) = match environment cfg with
                       | sandbox => "https://sandbox.api.visa.com"
                       | production => "https://api.visa.com"
                       end.
Proof.
  assert (Hu : unready (new_VisaClient cfg)) by (split; reflexivity).
  destruct (session_of_unready calls _ Hu)
    as [(_ & R1 & _) | (env & c & k & _ & _ & _ & _ & B3 & _)].
  - rewrite R1. intros [].
  - intros Hin. rewrite Forall_forall in B3. rewrite (B3 r Hin).
    split; [repeat split|reflexivity].
Qed.

Lemma requests_use_the_configuration_witness :
  baseURL Samples.the_handle = "https://sandbox.api.visa.com".
Proof.
  apply (requests_use_the_configuration Samples.sample_config
           [(Samples.replying Samples.with_credentials Samples.ok_reply,
             OpHelloWorld)]
           (request_of OpHelloWorld
              (Samples.replying Samples.with_credentials Samples.ok_reply)
              Samples.the_handle)).
  left. reflexivity.
Defined.

(** *** Credential files that exist and cannot be read *)

Lemma initialize_unreadable env self err :
  initialized self = false ->
  unreadable_credential env (config self) err ->
  exists evs,
    initialize env self
      = {| result := Throw (VObj err); final := self; events := evs |}
    /\ quiet evs.
Proof.
  intros Hi [[Ec Hk] | [(c & Ec & Ek) | (c & k & p & Ec & Ek & [Hp Hne] & Hf)]].
  - eexists. split.
    { unfold initialize. step. rewrite Hi. step. rewrite Ec. cbv iota.
      step. destruct (fs env (keyPath (config self))) eqn:Ek;
        [contradiction| |]; cbv iota; step; reflexivity. }
    repeat split.
  - eexists. split.
    { unfold initialize. step. rewrite Hi. step. rewrite Ec. cbv iota.
      step. rewrite Ek. cbv iota. step. step. reflexivity. }
    repeat split.
  - apply String.eqb_neq in Hne. eexists. split.
    { unfold initialize. step. rewrite Hi. step. rewrite Ec. cbv iota.
      step. rewrite Ek. cbv iota. step. step. rewrite Hp.
      erewrite bind_throw by (apply read_ca_unreadable; eassumption).
      reflexivity. }
    repeat split.
Qed.

(** X16: When the certificate, the key or the configured CA bundle exists but
    cannot be read, an operation of an unready client throws the error of
    the file read itself, not the "not initialized" error; no agent is
    built, no request is sent, and the client stays unready, so that the
    next operation tries again. *)
Theorem unreadable_credential_is_thrown op env self err :
  unready self ->
  unreadable_credential env (config self) err ->
  result (perform op env self) = Throw (VObj err)
  /\ final (perform op env self) = self
  /\ quiet (events (perform op env self)).
Proof.
  intros [Hc Hi] Hu.
  destruct (initialize_unreadable env self err Hi Hu) as (evs & Hrun & Hq).
  pose proof (perform_cases op env self) as H.
  rewrite getClient_unfold, Hrun in H. rewrite H. cbn [result final events].
  repeat split; apply Hq.
Qed.

Lemma unreadable_credential_is_thrown_witness :
  result (perform OpHelloWorld
            (Samples.replying Cases.locked_ca Samples.ok_reply) Samples.fresh)
  = Throw (VObj Cases.eacces).
Proof.
  assert (Hu : unready Samples.fresh) by (split; reflexivity).
  assert (Hb : unreadable_credential
                 (Samples.replying Cases.locked_ca Samples.ok_reply)
                 (config Samples.fresh) Cases.eacces).
  { right. right. exists "CERT", "KEY", "./certs/ca.pem".
    repeat split; try reflexivity. discriminate. }
  exact (proj1 (unreadable_credential_is_thrown OpHelloWorld _ _ _ Hu Hb)).
Defined.

(** *** Start-up *)

(** X17: The client built at start-up has no handle.  It talks to the sandbox
    exactly when [VISA_ENV] is unset, empty or ["sandbox"]; any other value,
    whatever its spelling, selects the production URL.  The certificate and
    key paths are those of the environment, or the files of [./certs] when
    the variable is unset or empty. *)
Theorem startup_configuration penv :
  unready (Startup.visaClient penv)
  /\ baseUrl (Startup.visaClient penv)
     = Startup.constructor_baseUrl
         (Startup.raw_environment (Startup.startup_config penv))
  /\ (baseUrl (Startup.visaClient penv) = "https://sandbox.api.visa.com" <->
      penv "VISA_ENV" = None \/ penv "VISA_ENV" = Some ""
      \/ penv "VISA_ENV" = Some "sandbox")
  /\ (baseUrl (Startup.visaClient penv) = "https://api.visa.com" <->
      exists s, penv "VISA_ENV" = Some s /\ s <> "" /\ s <> "sandbox")
  /\ certPath (config (Startup.visaClient penv))
     = match penv "VISA_CERT_PATH" with
       | Some s => if String.eqb s "" then "./certs/cert.pem" else s
       | None => "./certs/cert.pem"
       end
  /\ keyPath (config (Startup.visaClient penv))
     = match penv "VISA_KEY_PATH" with
       | Some s => if String.eqb s "" then "./certs/key.pem" else s
       | None => "./certs/key.pem"
       end.
Proof.
  unfold Startup.visaClient, Startup.typed_config, Startup.startup_config,
    Startup.constructor_baseUrl, Startup.env_or, new_VisaClient.
  cbn [baseUrl config certPath keyPath environment Startup.raw_environment
       Startup.raw_certPath Startup.raw_keyPath truthy].
  split; [split; reflexivity|]. split.
  { destruct (String.eqb _ "sandbox"); reflexivity. }
  split; [|split; [|split]].
  - destruct (penv "VISA_ENV") as [s|]; cbn [negb].
    + destruct (String.eqb_spec s ""); cbn [negb].
      * subst s. cbn. split; [intros _; right; left; reflexivity | reflexivity].
      * destruct (String.eqb_spec s "sandbox").
        -- subst s. split; [intros _; right; right; reflexivity | reflexivity].
        -- split; [discriminate|].
           intros [H | [H | H]]; try discriminate; injection H as ->;
             contradiction.
    + cbn. split; [intros _; left; reflexivity | reflexivity].
  - destruct (penv "VISA_ENV") as [s|]; cbn [negb].
    + destruct (String.eqb_spec s ""); cbn [negb].
      * subst s. cbn. split; [discriminate|].
        intros (s & [= <-] & Hne & _). contradiction.
      * destruct (String.eqb_spec s "sandbox").
        -- subst s. split; [discriminate|].
           intros (s & [= <-] & _ & Hne). contradiction.
        -- split; [|reflexivity]. intros _. exists s. repeat split; assumption.
    + cbn. split; [discriminate|]. intros (s & H & _). discriminate.
  - destruct (penv "VISA_CERT_PATH") as [s|]; [|reflexivity].
    destruct (String.eqb s ""); reflexivity.
  - destruct (penv "VISA_KEY_PATH") as [s|]; [|reflexivity].
    destruct (String.eqb s ""); reflexivity.
Qed.

Lemma startup_configuration_witness :
  baseUrl (Startup.visaClient (Cases.only_visa_env "Sandbox"))
  = "https://api.visa.com".
Proof.
  apply (proj2 (proj1 (proj2 (proj2 (proj2
           (startup_configuration (Cases.only_visa_env "Sandbox"))))))).
  exists "Sandbox". repeat split; discriminate.
Defined.

(** *** The registry of transports *)

Lemma number_toString_inj n n' :
  number_toString n = number_toString n' -> n = n'.
Proof.
  unfold number_toString. intros H.
  apply DecimalZ.to_int_inj.
  assert (Hnn : forall z, Z.to_int z <> Decimal.Pos Decimal.Nil
                          /\ Z.to_int z <> Decimal.Neg Decimal.Nil).
  { intros [|p|p]; cbn; split; try discriminate;
      intros [= Hp]; exact (DecimalPos.Unsigned.to_uint_nonnil p Hp). }
  destruct (Hnn n) as [A1 A2]. destruct (Hnn n') as [B1 B2].
  pose proof (NilZero.isi _ A1 A2) as I1.
  pose proof (NilZero.isi _ B1 B2) as I2.
  rewrite H in I1. rewrite I1 in I2. injection I2 as ->. reflexivity.
Qed.

Lemma map_get_set_same k t m :
  Registry.map_get k (Registry.map_set k t m) = Some t.
Proof.
  induction m as [|[k' t'] m IH]; cbn [Registry.map_set Registry.map_get].
  - rewrite String.eqb_refl. reflexivity.
  - destruct (String.eqb k k') eqn:E; cbn [Registry.map_get];
      rewrite ?String.eqb_refl, ?E; [reflexivity | exact IH].
Qed.

Lemma map_get_set_other k k' t m :
  k' <> k ->
  Registry.map_get k' (Registry.map_set k t m) = Registry.map_get k' m.
Proof.
  intros Hne. induction m as [|[k0 t0] m IH];
    cbn [Registry.map_set Registry.map_get].
  - apply String.eqb_neq in Hne. rewrite Hne. reflexivity.
  - destruct (String.eqb k k0) eqn:E; cbn [Registry.map_get].
    + apply String.eqb_eq in E. subst k0.
      apply String.eqb_neq in Hne. rewrite Hne. reflexivity.
    + destruct (String.eqb k' k0); [reflexivity | exact IH].
Qed.

Lemma map_get_absent k m :
  ~ In k (map fst m) -> Registry.map_get k m = None.
Proof.
  induction m as [|[k' t'] m IH]; cbn [map fst In Registry.map_get];
    [reflexivity|].
  intros Hn. destruct (String.eqb_spec k k') as [->|_].
  - exfalso. apply Hn. left. reflexivity.
  - apply IH. intros Hin. apply Hn. right. exact Hin.
Qed.

Lemma map_get_delete_same k m :
  NoDup (map fst m) -> Registry.map_get k (Registry.map_delete k m) = None.
Proof.
  induction m as [|[k' t'] m IH]; cbn [map fst Registry.map_delete];
    [reflexivity|].
  intros Hnd. inversion Hnd as [|? ? Hnin Hnd']; subst.
  destruct (String.eqb_spec k k') as [->|Hne].
  - apply map_get_absent. exact Hnin.
  - cbn [Registry.map_get]. apply String.eqb_neq in Hne. rewrite Hne.
    apply IH. exact Hnd'.
Qed.

Lemma map_get_delete_other k k' m :
  k' <> k ->
  Registry.map_get k' (Registry.map_delete k m) = Registry.map_get k' m.
Proof.
  intros Hne. induction m as [|[k0 t0] m IH];
    cbn [Registry.map_delete Registry.map_get]; [reflexivity|].
  destruct (String.eqb_spec k k0) as [->|Hk].
  - apply String.eqb_neq in Hne. rewrite Hne. reflexivity.
  - cbn [Registry.map_get]. destruct (String.eqb k' k0); [reflexivity | exact IH].
Qed.

Lemma map_set_keys k t m :
  NoDup (map fst m) ->
  NoDup (map fst (Registry.map_set k t m))
  /\ (forall k', In k' (map fst (Registry.map_set k t m)) <->
                 k' = k \/ In k' (map fst m)).
Proof.
  induction m as [|[k0 t0] m IH]; cbn [Registry.map_set map fst].
  - intros _. split; [constructor; [intros []|constructor]|].
    intros k'. cbn. intuition congruence.
  - intros Hnd. inversion Hnd as [|? ? Hnin Hnd']; subst.
    destruct (String.eqb_spec k k0) as [->|Hne]; cbn [map fst].
    + split; [exact Hnd|]. intros k'. cbn. intuition congruence.
    + destruct (IH Hnd') as [IH1 IH2]. split.
      * constructor; [|exact IH1]. intros Hin. apply IH2 in Hin.
        destruct Hin as [-> | Hin]; [congruence | contradiction].
      * intros k'. cbn. rewrite IH2. intuition congruence.
Qed.

Lemma map_set_length_same k t t' m :
  length (Registry.map_set k t' (Registry.map_set k t m))
    = length (Registry.map_set k t m).
Proof.
  induction m as [|[k0 t0] m IH]; cbn [Registry.map_set].
  - rewrite String.eqb_refl. reflexivity.
  - destruct (String.eqb k k0) eqn:E; cbn [Registry.map_set];
      rewrite ?String.eqb_refl, ?E; cbn [length]; [reflexivity|].
    rewrite IH. reflexivity.
Qed.

(** X18: Two connections accepted within the same millisecond get the same
    session identifier: the second transport takes the place of the first in
    the registry, which does not grow, and the close of either connection
    removes the entry of both. *)
Theorem same_millisecond_sessions_collide now_ms first second m :
  NoDup (map fst m) ->
  let opened1 := Registry.open_connection now_ms first m in
  let opened2 := Registry.open_connection now_ms second (snd opened1) in
  fst opened1 = fst opened2
  /\ Registry.map_get (fst opened1) (snd opened2) = Some second
  /\ length (snd opened2) = length (snd opened1)
  /\ Registry.map_get (fst opened2)
       (Registry.on_close (fst opened1) (snd opened2)) = None.
Proof.
  intros Hnd. cbv zeta. unfold Registry.open_connection, Registry.on_close.
  cbn [fst snd].
  split; [reflexivity|]. split; [apply map_get_set_same|].
  split; [apply map_set_length_same|].
  apply map_get_delete_same.
  apply map_set_keys. apply map_set_keys. exact Hnd.
Qed.

Lemma same_millisecond_sessions_collide_witness :
  Registry.map_get "1714564800000"
    (Registry.on_close "1714564800000"
       (snd (Registry.open_connection 1714564800000 2
               (snd (Registry.open_connection 1714564800000 1 []))))) = None.
Proof.
  assert (Hnd : NoDup (map fst (@nil (string * nat)))) by constructor.
  exact (proj2 (proj2 (proj2
           (same_millisecond_sessions_collide 1714564800000 1 2 [] Hnd)))).
Defined.

(** X19: Connections accepted at different milliseconds get different session
    identifiers and do not disturb each other: both transports are
    registered, and the close of one removes its own entry only. *)
Theorem distinct_milliseconds_sessions_are_independent
    now1 now2 first second m :
  now1 <> now2 ->
  NoDup (map fst m) ->
  let opened1 := Registry.open_connection now1 first m in
  let opened2 := Registry.open_connection now2 second (snd opened1) in
  fst opened1 <> fst opened2
  /\ Registry.map_get (fst opened1) (snd opened2) = Some first
  /\ Registry.map_get (fst opened2) (snd opened2) = Some second
  /\ Registry.map_get (fst opened1)
       (Registry.on_close (fst opened1) (snd opened2)) = None
  /\ Registry.map_get (fst opened2)
       (Registry.on_close (fst opened1) (snd opened2)) = Some second.
Proof.
  intros Hne Hnd. cbv zeta. unfold Registry.open_connection, Registry.on_close.
  cbn [fst snd].
  assert (Hk : number_toString now1 <> number_toString now2)
    by (intros H; apply Hne; apply number_toString_inj; exact H).
  split; [exact Hk|]. split.
  { rewrite map_get_set_other by exact Hk. apply map_get_set_same. }
  split; [apply map_get_set_same|]. split.
  { apply map_get_delete_same. apply map_set_keys. apply map_set_keys.
    exact Hnd. }
  rewrite map_get_delete_other by (intros H; apply Hk; symmetry; exact H).
  apply map_get_set_same.
Qed.

Lemma distinct_milliseconds_sessions_are_independent_witness :
  Registry.map_get "1714564800001"
    (Registry.on_close "1714564800000"
       (snd (Registry.open_connection 1714564800001 2
               (snd (Registry.open_connection 1714564800000 1 []))))) = Some 2%nat.
Proof.
  assert (Hne : 1714564800000 <> 1714564800001) by lia.
  assert (Hnd : NoDup (map fst (@nil (string * nat)))) by constructor.
  exact (proj2 (proj2 (proj2 (proj2
           (distinct_milliseconds_sessions_are_independent
              1714564800000 1714564800001 1 2 [] Hne Hnd))))).
Defined.
